(** * Startup / shutdown orchestration of desktop-leadmonk ([main.js])

    A shallow embedding of the supervisor found in [main.js]: the port
    allocator [findFreePort], the storage initializer [initDbIfNeeded],
    the two supervised children ([startPostgres], [startListmonk]), the
    [app.whenReady] pipeline and the [before-quit] / [will-quit] handlers.

    Conventions.
    - JavaScript numbers that hold ports, loop counters and exit codes are
      integers well below 2^53; they are modelled by [Z].
    - A child process is seen through the events Node delivers to the
      handlers registered on it ([proc_event]); the events of one child are
      delivered one at a time, each handler running to completion.
    - A [Promise] is a one-shot cell ([promise]); [resolve] and [reject] on
      a settled promise do nothing, as in ECMAScript.
    - [console.log] / [console.error] are write-only and not modelled.
      Of the per-role log files only the opening ([createLogStream]) is
      recorded, in [logs]: what the two [pipe]s write into a log depends
      on when each stream of the child ends, which the events modelled
      here do not tell.
    - [fs] calls are assumed to succeed, except [fs.unlinkSync] whose
      failure the source catches. *)

From Stdlib Require Import ZArith List String Ascii Bool Lia.
Import ListNotations.
Local Open Scope string_scope.
Local Open Scope Z_scope.
Local Open Scope list_scope.

(* ===================================================================== *)
(** ** JavaScript prelude: promises, errors, truthiness                  *)
(* ===================================================================== *)

Module Js.

(** What the [catch] of the pipeline can receive. *)
Inductive error : Type :=
| SpawnErr (cause : string)
    (** the [err] object handed to a child's ['error'] handler *)
| InitdbExit (code : option Z)
    (** [new Error(`initdb exited with code ${code}`)] *)
| NoFreePort (startPort : Z)
    (** [new Error(`No free port found for Postgres starting at ...`)] *)
| BadPort (port : Z)
    (** the [RangeError] ([ERR_SOCKET_BAD_PORT]) that [listen(port)] throws
        for a port outside 0 .. 65535 *)
| InstallErr (cause : string)
    (** the [err] of the [execFile] callback of [installListmonk] *)
| KillErr (cause : string).
    (** whatever [ChildProcess.kill] threw *)

Inductive promise (A : Type) : Type :=
| Pending
| Fulfilled (v : A)
| Rejected (e : error).
Arguments Pending {A}.
Arguments Fulfilled {A} v.
Arguments Rejected {A} e.

Definition resolve {A} (p : promise A) (v : A) : promise A :=
  match p with Pending => Fulfilled v | _ => p end.

Definition reject {A} (p : promise A) (e : error) : promise A :=
  match p with Pending => Rejected e | _ => p end.

Definition settled {A} (p : promise A) : bool :=
  match p with Pending => false | _ => true end.

(** The three things an [await] can do. *)
Inductive awaited (A : Type) : Type :=
| Returned (v : A)
| Threw (e : error)
| NeverSettles.
Arguments Returned {A} v.
Arguments Threw {A} e.
Arguments NeverSettles {A}.

Definition await {A} (p : promise A) : awaited A :=
  match p with
  | Pending => NeverSettles
  | Fulfilled v => Returned v
  | Rejected e => Threw e
  end.

(** [x || d] for [x] that is [null] or a string: [null] and the empty
    string are falsy. *)
Definition or_default (x : option string) (d : string) : string :=
  match x with
  | None => d
  | Some EmptyString => d
  | Some s => s
  end.

(** An exit code as the ['close'] handler receives it: a number, or
    [null] ([None]) when the child was ended by a signal. *)
Definition exit_code := option Z.

(** [code === 0] *)
Definition is_zero (code : exit_code) : bool :=
  match code with Some 0 => true | _ => false end.

(** [code !== 0] *)
Definition is_nonzero (code : exit_code) : bool := negb (is_zero code).

End Js.
Import Js.

(* ===================================================================== *)
(** ** Text scanning: [String.prototype.includes] and the two regexes    *)
(* ===================================================================== *)

Module Scan.

(** [startsWith p s] is the rest of [s] after [p] when [s] begins with
    [p]. *)
Fixpoint startsWith (p s : string) : option string :=
  match p, s with
  | EmptyString, _ => Some s
  | String _ _, EmptyString => None
  | String a p', String b s' =>
      if Ascii.eqb a b then startsWith p' s' else None
  end.

(** [line.includes(needle)] *)
Fixpoint includes (line needle : string) {struct line} : bool :=
  match startsWith needle line with
  | Some _ => true
  | None =>
      match line with
      | EmptyString => false
      | String _ rest => includes rest needle
      end
  end.

(** [\d] without the unicode flag: [0-9]. *)
Definition is_digit (c : ascii) : bool :=
  let n := nat_of_ascii c in (Nat.leb 48 n && Nat.leb n 57)%bool.

(** The longest run of digits [s] begins with: what a greedy [\d+]
    consumes. *)
Fixpoint digits (s : string) : string :=
  match s with
  | EmptyString => EmptyString
  | String c s' => if is_digit c then String c (digits s') else EmptyString
  end.

(** [line.match(/<lit>(\d+)/)] for a literal [lit]: the leftmost position
    where [lit] is followed by at least one digit; the result is
    [match[1]]. *)
Fixpoint match_capture (lit line : string) {struct line} : option string :=
  let here :=
    match startsWith lit line with
    | Some rest =>
        match digits rest with
        | EmptyString => None
        | d => Some d
        end
    | None => None
    end in
  match here with
  | Some d => Some d
  | None =>
      match line with
      | EmptyString => None
      | String _ rest => match_capture lit rest
      end
  end.

Definition pg_ready_marker : string :=
  "database system is ready to accept connections".

(** [/http server started on 127\.0\.0\.1:(\d+)/] *)
Definition lm_pattern1 : string := "http server started on 127.0.0.1:".

(** [/Web server listening on http:\/\/127\.0\.0\.1:(\d+)/] *)
Definition lm_pattern2 : string :=
  "Web server listening on http://127.0.0.1:".

(** The ordered pattern list of [startListmonk]: the second pattern is
    tried only when the first one fails. *)
Definition lm_match (line : string) : option string :=
  match match_capture lm_pattern1 line with
  | Some d => Some d
  | None => match_capture lm_pattern2 line
  end.

End Scan.

(* ===================================================================== *)
(** ** Port allocator: [findFreePort]                                    *)
(* ===================================================================== *)

Module PortAllocator.

(** The ports [listen] accepts: 0 .. 65535. *)
Definition valid_port (port : Z) : bool :=
  ((0 <=? port) && (port <=? 65535))%bool.

Section Probe.

(** [isFree port] is what the transient [net.createServer().listen(port)]
    probe resolves to for a port [listen] accepts: [true] on ['listening']
    (the server is then closed), [false] on ['error'].  Every candidate
    is probed at most once, so a function of the port loses no
    generality. *)
Variable isFree : Z -> bool.
Variable startPort : Z.

(** The [for] loop with [n] iterations left; [probed] lists the ports
    on which [listen] was called so far, oldest first.  For a port that
    is not valid [listen] throws inside the executor of the probe
    promise: the promise is rejected, the [await] throws and
    [findFreePort] ends with that error. *)
Fixpoint attempts (n : nat) (port : Z) (probed : list Z)
  : (Z + error) * list Z :=
  match n with
  | O => (inr (NoFreePort startPort), probed)
  | S n' =>
      if valid_port port then
        if isFree port then (inl port, probed ++ [port])
        else attempts n' (port + 1) (probed ++ [port])
      else (inr (BadPort port), probed ++ [port])
  end.

(** [findFreePort(startPort, maxAttempts)]: [i] runs from [0] while
    [i < maxAttempts]. *)
Definition findFreePort (maxAttempts : Z) : (Z + error) * list Z :=
  attempts (Z.to_nat maxAttempts) startPort [].

End Probe.

Definition default_startPort : Z := 54321.
Definition default_maxAttempts : Z := 20.

End PortAllocator.

(* ===================================================================== *)
(** ** Shared state of the async wrapper and its observable effects      *)
(* ===================================================================== *)

Module State.

Inductive role : Type := Database | Application.

(** The [ChildProcess] object returned by [spawn] for one of the two
    supervised roles; both are started with the database port. *)
Record handle : Type := { h_role : role; h_pgPort : Z }.

(** What Node delivers to the handlers registered on a child:
    ['error'], ['data'] on [stdout] / [stderr] (after [toString]), and
    ['close'] with the exit code.  The text of one ['data'] event is what
    the handlers call a line: they match it as a whole and never split or
    join chunks. *)
Inductive proc_event : Type :=
| OnError (err : string)
| StdoutData (txt : string)
| StderrData (txt : string)
| OnClose (code : exit_code).

(** The three paths of [DATA_DIR] the code looks at. *)
Record storage : Type := {
  dataDir : bool;                (** [fs.existsSync(DATA_DIR)] *)
  pidFile : bool;                (** [postmaster.pid] present *)
  initMarker : option string     (** content of [initialized.txt] *)
}.

Inductive dialog_body : Type :=
| Text (s : string)
| ErrToString (e : error).       (** [err.toString()] *)

(** One [dialog.showErrorBox(title, content)]. *)
Record dialog : Type := { title : string; content : dialog_body }.

(** [kill('SIGTERM')] and the argument-less [kill()]. *)
Inductive kill_arg : Type := WithSIGTERM | NoArgument.

Record env : Type := {
  fs : storage;
  pgProcess : option handle;
  listmonkProcess : option handle;
  isQuitting : bool;
  mainWindow : option string;            (** URL given to [loadURL] *)
  dialogs : list dialog;                 (** oldest first *)
  logs : list string;                    (** log files opened, oldest first *)
  kills : list (handle * kill_arg);      (** calls of [kill], oldest first *)
  quitRequested : bool                   (** [app.quit()] was called *)
}.

(** State when the async wrapper starts: [pgProcess = null],
    [listmonkProcess = null], [isQuitting = false], [mainWindow = null]. *)
Definition boot (disk : storage) : env :=
  {| fs := disk; pgProcess := None; listmonkProcess := None;
     isQuitting := false; mainWindow := None; dialogs := []; logs := [];
     kills := []; quitRequested := false |}.

Definition set_fs (x : storage) (st : env) : env :=
  {| fs := x; pgProcess := pgProcess st;
     listmonkProcess := listmonkProcess st; isQuitting := isQuitting st;
     mainWindow := mainWindow st; dialogs := dialogs st; logs := logs st;
     kills := kills st; quitRequested := quitRequested st |}.

Definition set_pgProcess (x : option handle) (st : env) : env :=
  {| fs := fs st; pgProcess := x;
     listmonkProcess := listmonkProcess st; isQuitting := isQuitting st;
     mainWindow := mainWindow st; dialogs := dialogs st; logs := logs st;
     kills := kills st; quitRequested := quitRequested st |}.

Definition set_listmonkProcess (x : option handle) (st : env) : env :=
  {| fs := fs st; pgProcess := pgProcess st;
     listmonkProcess := x; isQuitting := isQuitting st;
     mainWindow := mainWindow st; dialogs := dialogs st; logs := logs st;
     kills := kills st; quitRequested := quitRequested st |}.

Definition set_isQuitting (x : bool) (st : env) : env :=
  {| fs := fs st; pgProcess := pgProcess st;
     listmonkProcess := listmonkProcess st; isQuitting := x;
     mainWindow := mainWindow st; dialogs := dialogs st; logs := logs st;
     kills := kills st; quitRequested := quitRequested st |}.

Definition set_mainWindow (x : option string) (st : env) : env :=
  {| fs := fs st; pgProcess := pgProcess st;
     listmonkProcess := listmonkProcess st; isQuitting := isQuitting st;
     mainWindow := x; dialogs := dialogs st; logs := logs st;
     kills := kills st; quitRequested := quitRequested st |}.

(** [dialog.showErrorBox(t, c)] *)
Definition showErrorBox (t : string) (c : dialog_body) (st : env) : env :=
  {| fs := fs st; pgProcess := pgProcess st;
     listmonkProcess := listmonkProcess st; isQuitting := isQuitting st;
     mainWindow := mainWindow st;
     dialogs := dialogs st ++ [{| title := t; content := c |}];
     logs := logs st; kills := kills st;
     quitRequested := quitRequested st |}.

(** [createLogStream(logFileName)]: the log directory is created when
    missing and the file is opened for appending. *)
Definition createLogStream (logFileName : string) (st : env) : env :=
  {| fs := fs st; pgProcess := pgProcess st;
     listmonkProcess := listmonkProcess st; isQuitting := isQuitting st;
     mainWindow := mainWindow st; dialogs := dialogs st;
     logs := logs st ++ [logFileName]; kills := kills st;
     quitRequested := quitRequested st |}.

Definition record_kill (h : handle) (a : kill_arg) (st : env) : env :=
  {| fs := fs st; pgProcess := pgProcess st;
     listmonkProcess := listmonkProcess st; isQuitting := isQuitting st;
     mainWindow := mainWindow st; dialogs := dialogs st; logs := logs st;
     kills := kills st ++ [(h, a)]; quitRequested := quitRequested st |}.

(** [app.quit()] *)
Definition app_quit (st : env) : env :=
  {| fs := fs st; pgProcess := pgProcess st;
     listmonkProcess := listmonkProcess st; isQuitting := isQuitting st;
     mainWindow := mainWindow st; dialogs := dialogs st; logs := logs st;
     kills := kills st; quitRequested := true |}.

(** Events of one child are handed to [handler] in order while the promise
    the handlers close over is still pending; the result carries the
    events not yet delivered when the promise settles (the [await]
    continuation runs before they are). *)
Fixpoint deliver_until_settled {S A : Type}
    (handler : proc_event -> S * promise A -> S * promise A)
    (evs : list proc_event) (c : S * promise A)
  : (S * promise A) * list proc_event :=
  match evs with
  | [] => (c, [])
  | ev :: rest =>
      let c' := handler ev c in
      if settled (snd c') then (c', rest)
      else deliver_until_settled handler rest c'
  end.

(** Every event of the list handed to [handler], in order. *)
Definition deliver_all {S A : Type}
    (handler : proc_event -> S * promise A -> S * promise A)
    (evs : list proc_event) (c : S * promise A) : S * promise A :=
  fold_left (fun acc ev => handler ev acc) evs c.

(** How many of the delivered events moved the promise out of [Pending]. *)
Fixpoint settle_count {S A : Type}
    (handler : proc_event -> S * promise A -> S * promise A)
    (evs : list proc_event) (c : S * promise A) : nat :=
  match evs with
  | [] => O
  | ev :: rest =>
      let c' := handler ev c in
      ((if (negb (settled (snd c)) && settled (snd c'))%bool then 1 else 0)
       + settle_count handler rest c')%nat
  end.

End State.
Import State.

(* ===================================================================== *)
(** ** Storage initializer: [cleanLeftoverLockFile], [initDbIfNeeded]    *)
(* ===================================================================== *)

Module StorageInit.

(** [fs.mkdirSync(DATA_DIR, { recursive: true })] when the directory is
    missing. *)
Definition ensure_dataDir (s : storage) : storage :=
  if dataDir s then s
  else {| dataDir := true; pidFile := pidFile s; initMarker := initMarker s |}.

(** [cleanLeftoverLockFile()]; [unlink_ok = false] is the case where
    [fs.unlinkSync] throws and the [catch] only warns. *)
Definition cleanLeftoverLockFile (unlink_ok : bool) (s : storage) : storage :=
  if pidFile s then
    if unlink_ok then
      {| dataDir := dataDir s; pidFile := false; initMarker := initMarker s |}
    else s
  else s.

(** [fs.writeFileSync(initMarker, 'done')] *)
Definition write_marker (s : storage) : storage :=
  {| dataDir := dataDir s; pidFile := pidFile s; initMarker := Some "done" |}.

(** [fs.existsSync(initMarker)] *)
Definition marker_exists (s : storage) : bool :=
  match initMarker s with Some _ => true | None => false end.

(** The handlers registered on the [initdb] child. *)
Definition initdb_event (ev : proc_event) (c : storage * promise unit)
  : storage * promise unit :=
  let (s, p) := c in
  match ev with
  | OnError err => (s, reject p (SpawnErr err))
  | StdoutData _ => (s, p)
  | StderrData _ => (s, p)
  | OnClose code =>
      if is_zero code then (write_marker s, resolve p tt)
      else (s, reject p (InitdbExit code))
  end.

(** What one call of [initDbIfNeeded] did. *)
Record init_run : Type := {
  init_result : awaited unit;
  init_fs : storage;             (** the disk when the call returns *)
  init_spawned : nat;            (** how many times [initdb] was spawned *)
  init_pending : list proc_event (** events of the child not yet delivered *)
}.

(** [initDbIfNeeded()], given the events the spawned [initdb] child will
    produce if it is spawned. *)
Definition initDbIfNeeded (unlink_ok : bool) (initdb : list proc_event)
    (s : storage) : init_run :=
  let s1 := cleanLeftoverLockFile unlink_ok (ensure_dataDir s) in
  if marker_exists s1 then
    {| init_result := Returned tt; init_fs := s1; init_spawned := 0;
       init_pending := [] |}
  else
    let '((s2, p), rest) :=
      deliver_until_settled initdb_event initdb (s1, Pending) in
    {| init_result := await p; init_fs := s2; init_spawned := 1;
       init_pending := rest |}.

Inductive stream : Type := Stdout | Stderr.

Definition data_event (d : stream * string) : proc_event :=
  match d with
  | (Stdout, txt) => StdoutData txt
  | (Stderr, txt) => StderrData txt
  end.

(** The two ways a spawned command ends, as Node reports them: it runs,
    prints and closes with an exit code ([null] when ended by a signal);
    or the spawn itself fails, which Node reports by ['error'] followed by
    ['close'] carrying the negative errno. *)
Inductive child_run : Type :=
| Exits (output : list (stream * string)) (code : exit_code)
| FailsToSpawn (err : string) (errno : positive).

Definition events_of (r : child_run) : list proc_event :=
  match r with
  | Exits output code => map data_event output ++ [OnClose code]
  | FailsToSpawn err errno => [OnError err; OnClose (Some (Z.neg errno))]
  end.

End StorageInit.

(* ===================================================================== *)
(** ** Supervised children: [startPostgres], [startListmonk]             *)
(* ===================================================================== *)

Module Supervisor.

Definition pg_crash_dialog : dialog :=
  {| title := "Postgres Error";
     content := Text "Postgres crashed unexpectedly." |}.

Definition lm_crash_dialog : dialog :=
  {| title := "Listmonk Stopped";
     content := Text "Listmonk crashed unexpectedly." |}.

(** The body shared by both ['close'] handlers:
    [if (!isQuitting && code !== 0) dialog.showErrorBox(...)]. *)
Definition on_close (d : dialog) (code : exit_code) (st : env) : env :=
  if (negb (isQuitting st) && is_nonzero code)%bool
  then showErrorBox (title d) (content d) st
  else st.

(** [checkLine(line)] of [startPostgres]. *)
Definition checkLine (line : string) (p : promise unit) : promise unit :=
  if Scan.includes line Scan.pg_ready_marker then resolve p tt else p.

(** The handlers [startPostgres] registers on its child. *)
Definition pg_event (ev : proc_event) (c : env * promise unit)
  : env * promise unit :=
  let (st, p) := c in
  match ev with
  | OnError err => (st, reject p (SpawnErr err))
  | StdoutData txt => (st, checkLine txt p)
  | StderrData txt => (st, checkLine txt p)
  | OnClose code => (on_close pg_crash_dialog code st, p)
  end.

(** The synchronous body of the executor of [startPostgres(port)]: the
    log is opened, the child is spawned, the handlers are registered
    and, last, [pgProcess = proc].  No event is delivered before it has
    run. *)
Definition startPostgres_spawn (port : Z) (st : env) : env * promise unit :=
  let proc := {| h_role := Database; h_pgPort := port |} in
  (set_pgProcess (Some proc) (createLogStream "postgres.log" st), Pending).

(** [await startPostgres(port)] against the events [evs] of the child:
    the outcome of the await, the state at that point, and the events of
    the child still to be delivered. *)
Definition startPostgres (port : Z) (evs : list proc_event) (st : env)
  : awaited unit * env * list proc_event :=
  let '((st', p), rest) :=
    deliver_until_settled pg_event evs (startPostgres_spawn port st) in
  (await p, st', rest).

(** The handlers [startListmonk] registers on its child.  The state they
    close over is the shared [env] and the local [ephemeralPort]; the
    promise is resolved with the object [{ ephemeralPort }], modelled by
    the value of that property. *)
Definition lm_event (ev : proc_event)
    (c : (env * option string) * promise (option string))
  : (env * option string) * promise (option string) :=
  let '((st, ephemeralPort), p) := c in
  match ev with
  | OnError err => ((st, ephemeralPort), reject p (SpawnErr err))
  | StdoutData line =>
      match Scan.lm_match line with
      | Some captured => ((st, Some captured), resolve p (Some captured))
      | None => ((st, ephemeralPort), p)
      end
  | StderrData txt => ((st, ephemeralPort), p)
  | OnClose code => ((on_close lm_crash_dialog code st, ephemeralPort), p)
  end.

(** The synchronous body of the executor of [startListmonk(pgPort)]:
    the log is opened, [listmonkProcess = proc] right after the spawn,
    [let ephemeralPort = null]. *)
Definition startListmonk_spawn (pgPort : Z) (st : env)
  : (env * option string) * promise (option string) :=
  let proc := {| h_role := Application; h_pgPort := pgPort |} in
  ((set_listmonkProcess (Some proc) (createLogStream "listmonk.log" st),
    None), Pending).

(** [await startListmonk(pgPort)]. *)
Definition startListmonk (pgPort : Z) (evs : list proc_event) (st : env)
  : awaited (option string) * env * list proc_event :=
  let '(((st', _), p), rest) :=
    deliver_until_settled lm_event evs (startListmonk_spawn pgPort st) in
  (await p, st', rest).

(** The handlers of a role, over the state each closes over. *)
Definition handler_state (r : role) : Type :=
  match r with
  | Database => (env * promise unit)%type
  | Application => ((env * option string) * promise (option string))%type
  end.

Definition role_event (r : role) : proc_event -> handler_state r -> handler_state r :=
  match r with
  | Database => pg_event
  | Application => lm_event
  end.

Definition env_of (r : role) : handler_state r -> env :=
  match r with
  | Database => fun c => fst c
  | Application => fun c => fst (fst c)
  end.

(** Is the readiness promise of the role still pending / rejected? *)
Definition is_pending (r : role) : handler_state r -> bool :=
  match r with
  | Database => fun c => negb (settled (snd c))
  | Application => fun c => negb (settled (snd c))
  end.

Definition rejection (r : role) : handler_state r -> option error :=
  match r with
  | Database => fun c => match snd c with Rejected e => Some e | _ => None end
  | Application => fun c => match snd c with Rejected e => Some e | _ => None end
  end.

Definition crash_dialog (r : role) : dialog :=
  match r with
  | Database => pg_crash_dialog
  | Application => lm_crash_dialog
  end.

End Supervisor.

(* ===================================================================== *)
(** ** Startup pipeline: the [app.whenReady()] handler                   *)
(* ===================================================================== *)

Module Pipeline.

(** Everything outside the program that one launch depends on. *)
Record world : Type := {
  unlink_ok : bool;                    (** [fs.unlinkSync] succeeds *)
  initdb_events : list proc_event;     (** events of the [initdb] child *)
  port_free : Z -> bool;               (** outcome of a probe [listen] *)
  postgres_events : list proc_event;   (** events of the database child *)
  install_err : option string;         (** [err] of the [execFile] callback *)
  listmonk_events : list proc_event    (** events of the application child *)
}.

(** The steps as the comments of the handler letter them. *)
Inductive step : Type := StepA | StepB | StepC | StepD | StepE.

Inductive verdict : Type :=
| WindowShown                          (** [createWindow] was reached *)
| StartupError (at_step : step) (e : error)   (** the [catch] ran *)
| Hung (at_step : step).               (** an awaited promise stays pending *)

Definition default_port : string := "9000".

(** [installListmonk(pgPort)]: resolves unless the callback gets an [err]. *)
Definition installListmonk (w : world) : awaited unit :=
  match install_err w with
  | Some cause => Threw (InstallErr cause)
  | None => Returned tt
  end.

(** [createWindow(port)] *)
Definition createWindow (port : option string) (st : env) : env :=
  let finalPort := or_default port default_port in
  set_mainWindow (Some (String.append "http://127.0.0.1:" finalPort)) st.

(** The [catch] block: [showErrorBox('Startup Error', err.toString())],
    then [app.quit()]. *)
Definition on_startup_error (e : error) (st : env) : env :=
  app_quit (showErrorBox "Startup Error" (ErrToString e) st).

(** The body of the [app.whenReady().then(async () => ...)] handler, up
    to the point where it returns, throws into its [catch], or waits for
    ever.  Events of a child that are still to come when its [await]
    returns go to the same handlers later ([Supervisor.pg_event],
    [Supervisor.lm_event]); they play no part in the control flow here. *)
Definition whenReady (w : world) (st : env) : verdict * env :=
  (* Step A *)
  let ir := StorageInit.initDbIfNeeded (unlink_ok w) (initdb_events w) (fs st) in
  let stA := set_fs (StorageInit.init_fs ir) st in
  match StorageInit.init_result ir with
  | NeverSettles => (Hung StepA, stA)
  | Threw e => (StartupError StepA e, on_startup_error e stA)
  | Returned _ =>
  (* Step B *)
  match fst (PortAllocator.findFreePort (port_free w)
               PortAllocator.default_startPort
               PortAllocator.default_maxAttempts) with
  | inr e => (StartupError StepB e, on_startup_error e stA)
  | inl pgPort =>
  (* Step C *)
  let '(rC, stC, _) :=
    Supervisor.startPostgres pgPort (postgres_events w) stA in
  match rC with
  | NeverSettles => (Hung StepC, stC)
  | Threw e => (StartupError StepC e, on_startup_error e stC)
  | Returned _ =>
  (* Step D *)
  match installListmonk w with
  | NeverSettles => (Hung StepD, stC)
  | Threw e => (StartupError StepD e, on_startup_error e stC)
  | Returned _ =>
  (* Step E *)
  let '(rE, stE, _) :=
    Supervisor.startListmonk pgPort (listmonk_events w) stC in
  match rE with
  | NeverSettles => (Hung StepE, stE)
  | Threw e => (StartupError StepE e, on_startup_error e stE)
  | Returned ephemeralPort =>
      let finalPort := or_default ephemeralPort default_port in
      (* Step F *)
      (WindowShown, createWindow (Some finalPort) stE)
  end end end end end.

End Pipeline.

(* ===================================================================== *)
(** ** Shutdown: the [before-quit] and [will-quit] handlers              *)
(* ===================================================================== *)

Module Shutdown.

(** [app.on('before-quit', ...)] *)
Definition before_quit (st : env) : env := set_isQuitting true st.

Section Kill.

(** [throws h a = Some cause] when the call of [kill] on [h] with
    argument [a] throws.  The handler calls [kill] at most once per
    handle and argument. *)
Variable throws : handle -> kill_arg -> option string.

(** [try { h.kill('SIGTERM') } catch (_) { h.kill() }]: the state after
    it, and the error that escapes it, if any. *)
Definition try_kill (h : handle) (st : env) : env * option error :=
  let st1 := record_kill h WithSIGTERM st in
  match throws h WithSIGTERM with
  | None => (st1, None)
  | Some _ =>
      let st2 := record_kill h NoArgument st1 in
      match throws h NoArgument with
      | None => (st2, None)
      | Some cause => (st2, Some (KillErr cause))
      end
  end.

(** One [if (proc) { try ... catch ... }] block. *)
Definition kill_if_spawned (proc : option handle) (st : env)
  : env * option error :=
  match proc with
  | None => (st, None)
  | Some h => try_kill h st
  end.

(** [app.on('will-quit', ...)]: the application block, then the database
    block; an error that escapes the first block ends the handler. *)
Definition will_quit (st : env) : env * option error :=
  match kill_if_spawned (listmonkProcess st) st with
  | (st1, Some e) => (st1, Some e)
  | (st1, None) => kill_if_spawned (pgProcess st1) st1
  end.

(** A whole shutdown: [before-quit], then [will-quit]. *)
Definition shutdown (st : env) : env * option error :=
  will_quit (before_quit st).

End Kill.

(** A [kill] that never throws. *)
Definition quiet : handle -> kill_arg -> option string := fun _ _ => None.

End Shutdown.

(* ===================================================================== *)
(** ** Vocabulary of the properties                                      *)
(* ===================================================================== *)

Module Props.

(** The [n] candidate ports from [port] upward. *)
Fixpoint candidates (port : Z) (n : nat) : list Z :=
  match n with
  | O => []
  | S n' => port :: candidates (port + 1) n'
  end.

(** The bootstrap command completed with exit code 0. *)
Definition completes_with_zero (r : StorageInit.child_run) : bool :=
  match r with
  | StorageInit.Exits _ code => is_zero code
  | StorageInit.FailsToSpawn _ _ => false
  end.

Definition is_error (ev : proc_event) : bool :=
  match ev with OnError _ => true | _ => false end.

(** A chunk of the database child that carries the readiness marker, on
    either stream. *)
Definition pg_ready_line (ev : proc_event) : bool :=
  match ev with
  | StdoutData txt => Scan.includes txt Scan.pg_ready_marker
  | StderrData txt => Scan.includes txt Scan.pg_ready_marker
  | _ => false
  end.

(** A chunk on the standard output of the application child that matches
    one of the two patterns. *)
Definition lm_ready_line (ev : proc_event) : bool :=
  match ev with
  | StdoutData txt =>
      match Scan.lm_match txt with Some _ => true | None => false end
  | _ => false
  end.

(** What "scanned line-by-line" says: the text of a stream cut at line
    feeds, [cur] being the line read so far ... *)
Fixpoint lines_from (cur text : string) : list string :=
  match text with
  | EmptyString => [cur]
  | String c rest =>
      if Ascii.eqb c "010"%char then cur :: lines_from EmptyString rest
      else lines_from (String.append cur (String c EmptyString)) rest
  end.

Definition stream_lines (text : string) : list string :=
  lines_from EmptyString text.

(** ... and the port of the first line that matches a pattern of the
    application. *)
Fixpoint first_line_port (ls : list string) : option string :=
  match ls with
  | [] => None
  | l :: rest =>
      match Scan.lm_match l with
      | Some captured => Some captured
      | None => first_line_port rest
      end
  end.

(** One chunk holding two readiness lines, the second pattern first. *)
Definition two_line_chunk : string :=
  String.append "Web server listening on http://127.0.0.1:1111"
    (String "010"%char
       (String.append "http server started on 127.0.0.1:2222"
          (String "010"%char EmptyString))).

(** Events before readiness: no spawn error and no readiness line. *)
Definition pg_quiet (evs : list proc_event) : bool :=
  forallb (fun ev => negb (is_error ev) && negb (pg_ready_line ev))%bool evs.

Definition lm_quiet (evs : list proc_event) : bool :=
  forallb (fun ev => negb (is_error ev) && negb (lm_ready_line ev))%bool evs.

(** The calls of [kill] one handle is due: the graceful one, followed by
    the argument-less one when the graceful one throws; none for a handle
    that was never spawned. *)
Definition due_calls (throws : handle -> kill_arg -> option string)
    (proc : option handle) : list (handle * kill_arg) :=
  match proc with
  | None => []
  | Some h =>
      match throws h WithSIGTERM with
      | None => [(h, WithSIGTERM)]
      | Some _ => [(h, WithSIGTERM); (h, NoArgument)]
      end
  end.

(** The error of a handle whose graceful and argument-less [kill] both
    throw. *)
Definition fallback_failure (throws : handle -> kill_arg -> option string)
    (proc : option handle) : option error :=
  match proc with
  | None => None
  | Some h =>
      match throws h WithSIGTERM, throws h NoArgument with
      | Some _, Some cause => Some (KillErr cause)
      | _, _ => None
      end
  end.

End Props.

(* ===================================================================== *)
(** ** Vocabulary of the further properties                              *)
(* ===================================================================== *)

Module Observations.

(** Every character of [s] is a decimal digit. *)
Fixpoint all_digits (s : string) : bool :=
  match s with
  | EmptyString => true
  | String c s' => (Scan.is_digit c && all_digits s')%bool
  end.

Definition starts_with_digit (s : string) : bool :=
  match s with
  | EmptyString => false
  | String c _ => Scan.is_digit c
  end.

(** Only output: neither ['error'] nor ['close']. *)
Definition only_output (evs : list proc_event) : bool :=
  forallb (fun ev => match ev with
                     | StdoutData _ | StderrData _ => true
                     | _ => false
                     end) evs.

(** The dialog of the [catch] block of the pipeline. *)
Definition startup_dialog (e : error) : dialog :=
  {| title := "Startup Error"; content := ErrToString e |}.

Definition is_crash_dialog (d : dialog) : Prop :=
  d = Supervisor.pg_crash_dialog \/ d = Supervisor.lm_crash_dialog.

Definition db_handle (pgPort : Z) : handle :=
  {| h_role := Database; h_pgPort := pgPort |}.

Definition app_handle (pgPort : Z) : handle :=
  {| h_role := Application; h_pgPort := pgPort |}.

(** What starting a child and handling its events may do to the shared
    state, the handle apart: add crash dialogs and open a log, nothing
    else. *)
Definition child_effects (st st' : env) : Prop :=
  fs st' = fs st /\
  pgProcess st' = pgProcess st /\
  listmonkProcess st' = listmonkProcess st /\
  isQuitting st' = isQuitting st /\
  mainWindow st' = mainWindow st /\
  kills st' = kills st /\
  quitRequested st' = quitRequested st /\
  exists ds, dialogs st' = dialogs st ++ ds /\ Forall is_crash_dialog ds.

(** The calls of [kill] one [will-quit] makes for the two handles. *)
Definition quit_calls (throws : handle -> kill_arg -> option string)
    (app db : option handle) : list (handle * kill_arg) :=
  Props.due_calls throws app
  ++ match Props.fallback_failure throws app with
     | Some _ => []
     | None => Props.due_calls throws db
     end.

End Observations.

(* ===================================================================== *)
(** * Properties                                                         *)
(* ===================================================================== *)

Import Props.

(** ** Port allocator *)


Lemma valid_port_range (port : Z) :
  PortAllocator.valid_port port = true <-> 0 <= port <= 65535.
Proof.
  unfold PortAllocator.valid_port.
  rewrite andb_true_iff, !Z.leb_le. reflexivity.
Qed.

(** The loop, from any point.  It stops at the first candidate
    [port + k] that is free, or at the first one [listen] refuses,
    having probed exactly [port .. port + k], every candidate before
    being a valid and busy port; or all [n] candidates are valid and
    busy and it throws having probed all of them. *)
Lemma attempts_spec (isFree : Z -> bool) (P : Z) (n : nat) :
  forall (port : Z) (probed : list Z),
    (exists k : nat,
        (k < n)%nat /\
        PortAllocator.attempts isFree P n port probed
          = (inl (port + Z.of_nat k),
             probed ++ candidates port (S k)) /\
        PortAllocator.valid_port (port + Z.of_nat k) = true /\
        isFree (port + Z.of_nat k) = true /\
        forall q, port <= q < port + Z.of_nat k ->
                  isFree q = false /\ PortAllocator.valid_port q = true)
    \/
    (exists k : nat,
        (k < n)%nat /\
        PortAllocator.attempts isFree P n port probed
          = (inr (BadPort (port + Z.of_nat k)),
             probed ++ candidates port (S k)) /\
        PortAllocator.valid_port (port + Z.of_nat k) = false /\
        forall q, port <= q < port + Z.of_nat k ->
                  isFree q = false /\ PortAllocator.valid_port q = true)
    \/
    (PortAllocator.attempts isFree P n port probed
       = (inr (NoFreePort P), probed ++ candidates port n) /\
     forall q, port <= q < port + Z.of_nat n ->
               isFree q = false /\ PortAllocator.valid_port q = true).
Proof.
  induction n as [|n IH]; intros port probed; cbn [PortAllocator.attempts].
  - right; right. split.
    + cbn. now rewrite app_nil_r.
    + intros q Hq. lia.
  - destruct (PortAllocator.valid_port port) eqn:Hvalid.
    + destruct (isFree port) eqn:Hfree.
      * left. exists O. repeat split.
        -- lia.
        -- cbn. rewrite Z.add_0_r. reflexivity.
        -- now rewrite Z.add_0_r.
        -- now rewrite Z.add_0_r.
        -- lia.
        -- lia.
      * assert (Hstep : forall k q,
                  (forall r, port + 1 <= r < port + 1 + Z.of_nat k ->
                     isFree r = false /\ PortAllocator.valid_port r = true) ->
                  port <= q < port + Z.of_nat (S k) ->
                  isFree q = false /\ PortAllocator.valid_port q = true).
        { intros k q Hrest Hq.
          destruct (Z.eq_dec q port) as [->|Hne]; [auto|].
          apply Hrest. lia. }
        destruct (IH (port + 1) (probed ++ [port]))
          as [(k & Hk & Hrun & Hv & Hhit & Hbelow)
             | [(k & Hk & Hrun & Hv & Hbelow) | (Hrun & Hall)]].
        -- left. exists (S k).
           replace (port + Z.of_nat (S k)) with (port + 1 + Z.of_nat k)
             by lia.
           split; [lia|]. split.
           { rewrite Hrun, <- app_assoc. reflexivity. }
           split; [exact Hv|]. split; [exact Hhit|].
           intros q Hq. apply (Hstep k q Hbelow). lia.
        -- right; left. exists (S k).
           replace (port + Z.of_nat (S k)) with (port + 1 + Z.of_nat k)
             by lia.
           split; [lia|]. split.
           { rewrite Hrun, <- app_assoc. reflexivity. }
           split; [exact Hv|].
           intros q Hq. apply (Hstep k q Hbelow). lia.
        -- right; right. split.
           { rewrite Hrun, <- app_assoc. reflexivity. }
           intros q Hq. apply (Hstep n q Hall). exact Hq.
    + right; left. exists O. repeat split.
      * lia.
      * cbn. rewrite Z.add_0_r. reflexivity.
      * now rewrite Z.add_0_r.
      * lia.
      * lia.
Qed.





(** The allocator on the default arguments with port 54321 taken: 54322 is
    returned after two probes. *)
Example findFreePort_next_port :
  PortAllocator.findFreePort (fun p => negb (p =? 54321))
    PortAllocator.default_startPort PortAllocator.default_maxAttempts
  = (inl 54322, [54321; 54322]).
Proof. reflexivity. Qed.

(** ** Storage initializer *)

(** Where the bootstrap promise stands once its events are delivered: a
    fulfilled promise means the marker was written just before; otherwise
    the disk is as it was. *)
Lemma initdb_delivery (evs : list proc_event) (s : storage) :
  let '((s', p), _) :=
    deliver_until_settled StorageInit.initdb_event evs (s, Pending) in
  match p with
  | Fulfilled _ => s' = StorageInit.write_marker s
  | _ => s' = s
  end.
Proof.
  induction evs as [|ev evs IH]; cbn [deliver_until_settled].
  - reflexivity.
  - destruct ev as [err|txt|txt|code]; cbn [StorageInit.initdb_event].
    + cbn. reflexivity.
    + cbn [snd settled]. exact IH.
    + cbn [snd settled]. exact IH.
    + destruct (is_zero code); cbn; reflexivity.
Qed.

(** Output chunks of the bootstrap child change nothing. *)
Lemma initdb_skips_output (out : list (StorageInit.stream * string))
    (tail : list proc_event) (s : storage) :
  deliver_until_settled StorageInit.initdb_event
    (map StorageInit.data_event out ++ tail) (s, Pending)
  = deliver_until_settled StorageInit.initdb_event tail (s, Pending).
Proof.
  induction out as [|[[|] txt] out IH]; cbn; auto.
Qed.

Lemma marker_after_cleanup (u : bool) (s : storage) :
  StorageInit.marker_exists
    (StorageInit.cleanLeftoverLockFile u (StorageInit.ensure_dataDir s))
  = StorageInit.marker_exists s.
Proof.
  unfold StorageInit.cleanLeftoverLockFile, StorageInit.ensure_dataDir,
    StorageInit.marker_exists.
  destruct s as [[|] [|] m]; destruct u; reflexivity.
Qed.

Lemma spawned_at_most_once (u : bool) (evs : list proc_event) (s : storage) :
  (StorageInit.init_spawned (StorageInit.initDbIfNeeded u evs s) <= 1)%nat.
Proof.
  unfold StorageInit.initDbIfNeeded.
  destruct (StorageInit.marker_exists _).
  - cbn. lia.
  - destruct (deliver_until_settled _ _ _) as [[s2 p] rest]. cbn. lia.
Qed.

(** C5. Two runs of [initDbIfNeeded] in sequence: when the first run
    completes successfully the marker is present, the second run spawns no
    bootstrap command and still completes successfully, so the command was
    spawned at most once over the two runs; the second run leaves the
    marker as it is. *)
Theorem initDbIfNeeded_twice (u1 u2 : bool) (evs1 evs2 : list proc_event)
    (s : storage) :
  let run1 := StorageInit.initDbIfNeeded u1 evs1 s in
  let run2 := StorageInit.initDbIfNeeded u2 evs2 (StorageInit.init_fs run1) in
  StorageInit.init_result run1 = Returned tt ->
  StorageInit.marker_exists (StorageInit.init_fs run1) = true /\
  StorageInit.init_spawned run2 = 0%nat /\
  StorageInit.init_result run2 = Returned tt /\
  (StorageInit.init_spawned run1 + StorageInit.init_spawned run2 <= 1)%nat /\
  initMarker (StorageInit.init_fs run2) = initMarker (StorageInit.init_fs run1).
Proof.
  intros run1 run2 Hok.
  assert (Hmarker : StorageInit.marker_exists (StorageInit.init_fs run1) = true).
  { subst run1. revert Hok. unfold StorageInit.initDbIfNeeded.
    destruct (StorageInit.marker_exists
                (StorageInit.cleanLeftoverLockFile u1
                   (StorageInit.ensure_dataDir s))) eqn:Hm.
    - cbn. intros _. exact Hm.
    - pose proof (initdb_delivery evs1
                    (StorageInit.cleanLeftoverLockFile u1
                       (StorageInit.ensure_dataDir s))) as Hd.
      destruct (deliver_until_settled StorageInit.initdb_event evs1 _)
        as [[s2 p] rest].
      cbn. destruct p as [|v|e]; cbn; try discriminate.
      intros _. rewrite Hd. reflexivity. }
  pose proof (spawned_at_most_once u1 evs1 s) as Hspawn1.
  fold run1 in Hspawn1.
  assert (Hrun2 : run2 =
    {| StorageInit.init_result := Returned tt;
       StorageInit.init_fs :=
         StorageInit.cleanLeftoverLockFile u2
           (StorageInit.ensure_dataDir (StorageInit.init_fs run1));
       StorageInit.init_spawned := 0;
       StorageInit.init_pending := [] |}).
  { subst run2. unfold StorageInit.initDbIfNeeded at 1.
    rewrite marker_after_cleanup, Hmarker. reflexivity. }
  rewrite Hrun2. cbn [StorageInit.init_result StorageInit.init_fs
                      StorageInit.init_spawned].
  repeat split; auto.
  - lia.
  - unfold StorageInit.cleanLeftoverLockFile, StorageInit.ensure_dataDir.
    destruct (StorageInit.init_fs run1) as [[|] [|] m]; destruct u2;
      reflexivity.
Qed.

(** Witness for C5: a fresh disk, a bootstrap that prints and exits with
    code 0, then a second run. *)
Lemma initDbIfNeeded_twice_witness :
  let fresh := {| dataDir := false; pidFile := false; initMarker := None |} in
  let evs := [StdoutData "Success."; OnClose (Some 0)] in
  let run1 := StorageInit.initDbIfNeeded true evs fresh in
  let run2 := StorageInit.initDbIfNeeded true evs (StorageInit.init_fs run1) in
  StorageInit.init_spawned run1 = 1%nat /\
  StorageInit.marker_exists (StorageInit.init_fs run1) = true /\
  StorageInit.init_spawned run2 = 0%nat /\
  StorageInit.init_result run2 = Returned tt.
Proof.
  intros fresh evs run1 run2.
  pose proof (initDbIfNeeded_twice true true evs evs fresh eq_refl)
    as (Hm & Hs & Hr & _ & _).
  split; [reflexivity|]. split; [exact Hm|]. split; [exact Hs|exact Hr].
Defined.

(** C6. Starting without the marker, one run of [initDbIfNeeded] spawns
    the bootstrap command once and the marker is present afterwards
    exactly when the command completed with exit code 0.  In that case the
    run succeeds and the marker holds ['done'].  On any other exit code
    the run fails with the exit error, on a spawn failure with the spawn
    error; in both cases the marker is absent, stays absent once the
    remaining events of the child are delivered, and the next run spawns
    the bootstrap command again. *)
Theorem initDbIfNeeded_marker (u : bool) (r : StorageInit.child_run)
    (s : storage) :
  StorageInit.marker_exists s = false ->
  let run := StorageInit.initDbIfNeeded u (StorageInit.events_of r) s in
  StorageInit.init_spawned run = 1%nat /\
  StorageInit.marker_exists (StorageInit.init_fs run) = completes_with_zero r /\
  (completes_with_zero r = true ->
     StorageInit.init_result run = Returned tt /\
     initMarker (StorageInit.init_fs run) = Some "done") /\
  (completes_with_zero r = false ->
     StorageInit.init_result run =
       Threw match r with
             | StorageInit.Exits _ code => InitdbExit code
             | StorageInit.FailsToSpawn err _ => SpawnErr err
             end /\
     (forall e,
        StorageInit.marker_exists
          (fst (deliver_all StorageInit.initdb_event
                  (StorageInit.init_pending run)
                  (StorageInit.init_fs run, Rejected e))) = false) /\
     (forall u' evs',
        StorageInit.init_spawned
          (StorageInit.initDbIfNeeded u' evs' (StorageInit.init_fs run))
        = 1%nat)).
Proof.
  intros Habsent run. subst run. unfold StorageInit.initDbIfNeeded.
  rewrite marker_after_cleanup, Habsent.
  set (s1 := StorageInit.cleanLeftoverLockFile u (StorageInit.ensure_dataDir s)).
  assert (Hs1 : StorageInit.marker_exists s1 = false)
    by (subst s1; now rewrite marker_after_cleanup).
  assert (Hretry : forall u' evs',
    StorageInit.init_spawned (StorageInit.initDbIfNeeded u' evs' s1) = 1%nat).
  { intros u' evs'. unfold StorageInit.initDbIfNeeded.
    rewrite marker_after_cleanup, Hs1.
    destruct (deliver_until_settled _ _ _) as [[s2 p] rest]. reflexivity. }
  destruct r as [out code | err errno]; cbn [StorageInit.events_of].
  - rewrite initdb_skips_output. cbn [deliver_until_settled
      StorageInit.initdb_event completes_with_zero].
    destruct (is_zero code) eqn:Hz; cbn.
    + repeat split; auto; discriminate.
    + repeat split; auto; try discriminate.
  - cbn. repeat split; auto; try discriminate.
Qed.

(** Witness for C6: a fresh disk and a bootstrap that exits with code 1. *)
Lemma initDbIfNeeded_marker_witness :
  let fresh := {| dataDir := false; pidFile := false; initMarker := None |} in
  let run :=
    StorageInit.initDbIfNeeded true
      (StorageInit.events_of (StorageInit.Exits [] (Some 1))) fresh in
  StorageInit.init_spawned run = 1%nat /\
  StorageInit.marker_exists (StorageInit.init_fs run) = false.
Proof.
  intros fresh run.
  pose proof (initDbIfNeeded_marker true (StorageInit.Exits [] (Some 1))
                fresh eq_refl) as (Hs & Hm & _).
  split; [exact Hs | exact Hm].
Defined.

(** ** Supervised children: readiness and exit *)

Section OneShot.

Variables S A : Type.
Variable handler : proc_event -> S * promise A -> S * promise A.
Variable quiet : proc_event -> bool.

(** The handlers only touch the promise through [resolve] and [reject]. *)
Hypothesis stable :
  forall ev c, settled (snd c) = true -> snd (handler ev c) = snd c.

(** An event that is neither an error nor a readiness line leaves a
    pending promise pending. *)
Hypothesis quiet_pending :
  forall ev c, quiet ev = true -> snd c = Pending ->
               snd (handler ev c) = Pending.

Lemma deliver_all_app (xs ys : list proc_event) (c : S * promise A) :
  deliver_all handler (xs ++ ys) c
  = deliver_all handler ys (deliver_all handler xs c).
Proof. unfold deliver_all. apply fold_left_app. Qed.

Lemma settle_count_app (xs ys : list proc_event) :
  forall c : S * promise A,
    settle_count handler (xs ++ ys) c
    = (settle_count handler xs c
       + settle_count handler ys (deliver_all handler xs c))%nat.
Proof.
  induction xs as [|x xs IH]; intros c; cbn [app settle_count].
  - reflexivity.
  - rewrite IH.
    change (deliver_all handler (x :: xs) c)
      with (deliver_all handler xs (handler x c)).
    lia.
Qed.

Lemma settled_forever (evs : list proc_event) :
  forall c : S * promise A,
    settled (snd c) = true ->
    snd (deliver_all handler evs c) = snd c /\
    settle_count handler evs c = 0%nat.
Proof.
  induction evs as [|ev evs IH]; intros c Hc; cbn [settle_count].
  - split; reflexivity.
  - pose proof (stable ev c Hc) as Hstep.
    assert (Hc' : settled (snd (handler ev c)) = true)
      by (rewrite Hstep; exact Hc).
    destruct (IH _ Hc') as [Hfin Hcount].
    change (deliver_all handler (ev :: evs) c)
      with (deliver_all handler evs (handler ev c)).
    rewrite Hfin, Hstep, Hcount, Hc. split; reflexivity.
Qed.

Lemma quiet_prefix (evs : list proc_event) :
  forall c : S * promise A,
    forallb quiet evs = true ->
    snd c = Pending ->
    snd (deliver_all handler evs c) = Pending /\
    settle_count handler evs c = 0%nat.
Proof.
  induction evs as [|ev evs IH]; intros c Hq Hc; cbn [settle_count].
  - split; [exact Hc | reflexivity].
  - cbn [forallb] in Hq. apply andb_true_iff in Hq as [Hev Hrest].
    pose proof (quiet_pending ev c Hev Hc) as Hstep.
    destruct (IH _ Hrest Hstep) as [Hfin Hcount].
    change (deliver_all handler (ev :: evs) c)
      with (deliver_all handler evs (handler ev c)).
    rewrite Hfin, Hcount, Hstep, Hc. split; reflexivity.
Qed.

(** A stream whose first event able to settle the promise fulfils it with
    [v]: the promise holds [v] at the end of the stream, it left
    [Pending] exactly once, and an [await] started before the stream
    receives [v]. *)
Lemma first_settles (pre post : list proc_event) (ev : proc_event) (v : A)
    (c : S * promise A) :
  forallb quiet pre = true ->
  snd c = Pending ->
  (forall c', snd c' = Pending -> snd (handler ev c') = Fulfilled v) ->
  snd (deliver_all handler (pre ++ ev :: post) c) = Fulfilled v /\
  settle_count handler (pre ++ ev :: post) c = 1%nat /\
  await (snd (fst (deliver_until_settled handler (pre ++ ev :: post) c)))
    = Returned v.
Proof.
  intros Hq Hc Hev.
  destruct (quiet_prefix pre c Hq Hc) as [Hpre Hcount].
  pose proof (Hev _ Hpre) as Hhit.
  assert (Hset : settled (snd (handler ev (deliver_all handler pre c))) = true)
    by (rewrite Hhit; reflexivity).
  destruct (settled_forever post _ Hset) as [Hpost Hcount'].
  split; [|split].
  - rewrite deliver_all_app.
    change (deliver_all handler (ev :: post) (deliver_all handler pre c))
      with (deliver_all handler post (handler ev (deliver_all handler pre c))).
    now rewrite Hpost.
  - rewrite settle_count_app, Hcount. cbn [settle_count].
    rewrite Hcount', Hpre, Hset. reflexivity.
  - clear Hpost Hcount' Hcount Hset Hhit Hpre.
    revert c Hq Hc. induction pre as [|x pre IH]; intros c Hq Hc;
      cbn [app deliver_until_settled].
    + rewrite (Hev _ Hc). cbn [settled fst]. now rewrite (Hev _ Hc).
    + cbn [forallb] in Hq. apply andb_true_iff in Hq as [Hx Hrest].
      rewrite (quiet_pending x c Hx Hc). cbn [settled].
      apply IH; auto.
Qed.

End OneShot.

Lemma pg_stable (ev : proc_event) (c : env * promise unit) :
  settled (snd c) = true -> snd (Supervisor.pg_event ev c) = snd c.
Proof.
  destruct c as [st p]; cbn [snd]; intros Hp.
  destruct p; try discriminate;
    destruct ev; cbn; unfold Supervisor.checkLine;
    try destruct (Scan.includes _ _); reflexivity.
Qed.

Lemma pg_quiet_pending (ev : proc_event) (c : env * promise unit) :
  (negb (is_error ev) && negb (pg_ready_line ev))%bool = true ->
  snd c = Pending -> snd (Supervisor.pg_event ev c) = Pending.
Proof.
  destruct c as [st p]; cbn [snd]; intros Hq ->.
  apply andb_true_iff in Hq as [He Hr].
  destruct ev; cbn in *; try discriminate; try reflexivity;
    unfold Supervisor.checkLine;
    apply negb_true_iff in Hr; rewrite Hr; reflexivity.
Qed.

Lemma lm_stable (ev : proc_event)
    (c : (env * option string) * promise (option string)) :
  settled (snd c) = true -> snd (Supervisor.lm_event ev c) = snd c.
Proof.
  destruct c as [[st v] p]; cbn [snd]; intros Hp.
  destruct p; try discriminate;
    destruct ev; cbn; try destruct (Scan.lm_match _); reflexivity.
Qed.

Lemma lm_quiet_pending (ev : proc_event)
    (c : (env * option string) * promise (option string)) :
  (negb (is_error ev) && negb (lm_ready_line ev))%bool = true ->
  snd c = Pending -> snd (Supervisor.lm_event ev c) = Pending.
Proof.
  destruct c as [[st v] p]; cbn [snd]; intros Hq ->.
  apply andb_true_iff in Hq as [He Hr].
  destruct ev; cbn in *; try discriminate; try reflexivity.
  destruct (Scan.lm_match txt); [discriminate | reflexivity].
Qed.

Lemma startPostgres_result (port : Z) (evs : list proc_event) (st : env) :
  fst (fst (Supervisor.startPostgres port evs st))
  = await (snd (fst (deliver_until_settled Supervisor.pg_event evs
                       (Supervisor.startPostgres_spawn port st)))).
Proof.
  unfold Supervisor.startPostgres.
  destruct (deliver_until_settled _ _ _) as [[st' p] rest]. reflexivity.
Qed.

Lemma startListmonk_result (pgPort : Z) (evs : list proc_event) (st : env) :
  fst (fst (Supervisor.startListmonk pgPort evs st))
  = await (snd (fst (deliver_until_settled Supervisor.lm_event evs
                       (Supervisor.startListmonk_spawn pgPort st)))).
Proof.
  unfold Supervisor.startListmonk.
  destruct (deliver_until_settled _ _ _) as [[[st' v] p] rest]. reflexivity.
Qed.

(** C7, as amended.  The unit the handlers match is the text of one
    ['data'] event, here [line]; it is not cut into lines.  Whatever
    follows the first such chunk that matches, the readiness promise is
    resolved exactly once, with the payload of that chunk.  For the
    database (first part) the chunk may be on either stream and the
    payload is empty; for the application (second part) the chunk is on
    standard output and the payload is what the ordered pattern list
    captures from it.  In both parts [post] is arbitrary: later matching
    chunks, errors and the exit change neither the value nor the count,
    and the [await] of the pipeline receives the first payload. *)
Theorem readiness_resolves_once (port : Z) (st : env)
    (pre post : list proc_event) (line : string) :
  (pg_quiet pre = true ->
   Scan.includes line Scan.pg_ready_marker = true ->
   forall ev, ev = StdoutData line \/ ev = StderrData line ->
     let evs := pre ++ ev :: post in
     let c0 := Supervisor.startPostgres_spawn port st in
     snd (deliver_all Supervisor.pg_event evs c0) = Fulfilled tt /\
     settle_count Supervisor.pg_event evs c0 = 1%nat /\
     fst (fst (Supervisor.startPostgres port evs st)) = Returned tt)
  /\
  (forall captured : string,
     lm_quiet pre = true ->
     Scan.lm_match line = Some captured ->
     let evs := pre ++ StdoutData line :: post in
     let c0 := Supervisor.startListmonk_spawn port st in
     snd (deliver_all Supervisor.lm_event evs c0) = Fulfilled (Some captured) /\
     settle_count Supervisor.lm_event evs c0 = 1%nat /\
     fst (fst (Supervisor.startListmonk port evs st))
       = Returned (Some captured)).
Proof.
  split.
  - intros Hq Hline ev Hev evs c0.
    rewrite startPostgres_result.
    apply (first_settles _ _ Supervisor.pg_event _ pg_stable
             pg_quiet_pending pre post ev tt c0 Hq eq_refl).
    intros [st' p'] Hp'. cbn [snd] in Hp'. subst p'.
    destruct Hev as [-> | ->]; cbn; unfold Supervisor.checkLine;
      rewrite Hline; reflexivity.
  - intros captured Hq Hline evs c0.
    rewrite startListmonk_result.
    apply (first_settles _ _ Supervisor.lm_event _ lm_stable
             lm_quiet_pending pre post (StdoutData line) (Some captured)
             c0 Hq eq_refl).
    intros [[st' v'] p'] Hp'. cbn [snd] in Hp'. subst p'.
    cbn. rewrite Hline. reflexivity.
Qed.

(** Witness for C7 (amended): two readiness chunks with different ports
    on the standard output of the application, and two marker chunks of
    the database, one per stream; the first one wins. *)
Lemma readiness_resolves_once_witness :
  let disk := {| dataDir := true; pidFile := false; initMarker := Some "done" |} in
  let first := "http server started on 127.0.0.1:8042" in
  let second := StdoutData "Web server listening on http://127.0.0.1:9999" in
  let ready := "LOG:  database system is ready to accept connections" in
  (settle_count Supervisor.pg_event
     ([StdoutData "starting"] ++ StderrData ready :: [StdoutData ready])
     (Supervisor.startPostgres_spawn 54321 (boot disk)) = 1%nat)
  /\
  (snd (deliver_all Supervisor.lm_event
          ([StderrData "loading config"] ++ StdoutData first :: [second])
          (Supervisor.startListmonk_spawn 54321 (boot disk)))
     = Fulfilled (Some "8042")
   /\ lm_ready_line second = true).
Proof.
  intros disk first second ready.
  pose proof (readiness_resolves_once 54321 (boot disk)
                [StdoutData "starting"] [StdoutData ready] ready)
    as [Hpg _].
  pose proof (readiness_resolves_once 54321 (boot disk)
                [StderrData "loading config"] [second] first)
    as [_ Hlm].
  split.
  - exact (proj1 (proj2 (Hpg eq_refl eq_refl (StderrData ready)
                           (or_intror eq_refl)))).
  - split.
    + exact (proj1 (Hlm "8042"%string eq_refl eq_refl)).
    + reflexivity.
Defined.

(** C7, counterexample.  The application prints two readiness lines,
    the first in the second format with port 1111, the second in the
    first format with port 2222, and both arrive in one chunk: the
    promise is resolved with the port of the second line.  And a
    readiness line with port 8042 that arrives cut in two chunks
    resolves the promise with port 80. *)
Lemma chunk_is_not_a_line :
  (first_line_port (stream_lines two_line_chunk) = Some "1111" /\
   fst (fst (Supervisor.startListmonk 54321 [StdoutData two_line_chunk]
               (boot {| dataDir := true; pidFile := false;
                        initMarker := Some "done" |})))
   = Returned (Some "2222"))
  /\
  (first_line_port
     (stream_lines
        (String.append "http server started on 127.0.0.1:80"
           (String.append "42" (String "010"%char EmptyString))))
   = Some "8042" /\
   fst (fst (Supervisor.startListmonk 54321
               [StdoutData "http server started on 127.0.0.1:80";
                StdoutData (String.append "42" (String "010"%char EmptyString))]
               (boot {| dataDir := true; pidFile := false;
                        initMarker := Some "done" |})))
   = Returned (Some "80")).
Proof. repeat split. Qed.

(** C1, as amended.  The ['close'] handler of a supervised child never
    rejects the readiness promise: whether the promise is rejected, and
    with what, is the same before and after the exit event.  A pending
    readiness promise is rejected by one event only, the child's
    ['error'] event, and then carries the error of that event. *)
Theorem exit_never_rejects (r : role) (c : Supervisor.handler_state r) :
  (forall code : exit_code,
     Supervisor.rejection r (Supervisor.role_event r (OnClose code) c)
     = Supervisor.rejection r c)
  /\
  (forall (ev : proc_event) (e : error),
     Supervisor.is_pending r c = true ->
     Supervisor.rejection r (Supervisor.role_event r ev c) = Some e ->
     exists err, ev = OnError err /\ e = SpawnErr err).
Proof.
  destruct r; cbn in c |- *.
  - destruct c as [st p]. split.
    + intros code. reflexivity.
    + intros ev e Hp. destruct p; try discriminate.
      destruct ev as [err|txt|txt|code]; cbn;
        unfold Supervisor.checkLine;
        try destruct (Scan.includes _ _); cbn; try discriminate.
      intros [= <-]. now exists err.
  - destruct c as [[st v] p]. split.
    + intros code. reflexivity.
    + intros ev e Hp. destruct p; try discriminate.
      destruct ev as [err|txt|txt|code]; cbn;
        try destruct (Scan.lm_match _); cbn; try discriminate.
      intros [= <-]. now exists err.
Qed.

(** Witness for C1 (amended): on a database child just spawned, the exit
    with code 1 rejects nothing, and the spawn error rejects with its own
    error. *)
Lemma exit_never_rejects_witness :
  Supervisor.rejection Database
    (Supervisor.role_event Database (OnClose (Some 1))
       (Supervisor.startPostgres_spawn 54321
          (boot {| dataDir := true; pidFile := false;
                   initMarker := Some "done" |}))) = None
  /\
  exists err, OnError "spawn postgres ENOENT" = OnError err /\
              SpawnErr "spawn postgres ENOENT" = SpawnErr err.
Proof.
  split.
  - exact (proj1 (exit_never_rejects Database
                    (Supervisor.startPostgres_spawn 54321
                       (boot {| dataDir := true; pidFile := false;
                                initMarker := Some "done" |})))
                 (Some 1)).
  - exact (proj2 (exit_never_rejects Database
                    (Supervisor.startPostgres_spawn 54321
                       (boot {| dataDir := true; pidFile := false;
                                initMarker := Some "done" |})))
                 (OnError "spawn postgres ENOENT")
                 (SpawnErr "spawn postgres ENOENT") eq_refl eq_refl).
Defined.

(** C1, counterexample.  A database child and an application child that
    exit with code 1 before any readiness line: neither readiness promise
    is rejected, both stay pending and the [await] never returns. *)
Lemma exit_before_ready_stays_pending :
  fst (fst (Supervisor.startPostgres 54321 [OnClose (Some 1)]
              (boot {| dataDir := true; pidFile := false;
                       initMarker := Some "done" |})))
    = NeverSettles
  /\
  fst (fst (Supervisor.startListmonk 54321 [OnClose (Some 1)]
              (boot {| dataDir := true; pidFile := false;
                       initMarker := Some "done" |})))
    = NeverSettles.
Proof. split; reflexivity. Qed.

(** C3, evaluated.  The sibling [startPostgres] resolves on a readiness
    line of standard error, and [startListmonk] resolves on a readiness
    line of standard output; the same line on the standard error of the
    application is only logged: the handler never touches the promise,
    and the [await] of the pipeline never returns. *)
Theorem listmonk_stderr_not_scanned :
  let disk := {| dataDir := true; pidFile := false; initMarker := Some "done" |} in
  let line := "http server started on 127.0.0.1:8042" in
  fst (fst (Supervisor.startPostgres 54321
              [StderrData "LOG:  database system is ready to accept connections"]
              (boot disk))) = Returned tt
  /\ fst (fst (Supervisor.startListmonk 54321 [StdoutData line] (boot disk)))
     = Returned (Some "8042")
  /\ fst (fst (Supervisor.startListmonk 54321
                 [StderrData line; OnClose (Some 0)] (boot disk)))
     = NeverSettles
  /\ (forall txt c,
        snd (Supervisor.lm_event (StderrData txt) c) = snd c).
Proof.
  intros disk line. repeat split.
  intros txt [[st v] p]. reflexivity.
Qed.

(** C8. The ['close'] handler of either role: with [isQuitting] set when
    the event fires no dialog is added, whatever the exit code; with
    [isQuitting] unset and an exit code other than 0 exactly one dialog is
    added, the crash dialog of that role; the two crash dialogs differ;
    and nothing but the dialog list changes. *)
Theorem close_crash_notification (r : role) (code : exit_code)
    (c : Supervisor.handler_state r) :
  let st := Supervisor.env_of r c in
  let st' := Supervisor.env_of r (Supervisor.role_event r (OnClose code) c) in
  (isQuitting st = true -> dialogs st' = dialogs st) /\
  (isQuitting st = false -> is_nonzero code = true ->
     dialogs st' = dialogs st ++ [Supervisor.crash_dialog r]) /\
  (isQuitting st = false -> is_nonzero code = false ->
     dialogs st' = dialogs st) /\
  Supervisor.crash_dialog Database <> Supervisor.crash_dialog Application /\
  isQuitting st' = isQuitting st.
Proof.
  destruct r; cbn in c |- *.
  - destruct c as [st p]. cbn. unfold Supervisor.on_close.
    repeat split.
    + intros ->. reflexivity.
    + intros -> ->. reflexivity.
    + intros -> ->. reflexivity.
    + discriminate.
    + destruct (negb (isQuitting st) && is_nonzero code)%bool; reflexivity.
  - destruct c as [[st v] p]. cbn. unfold Supervisor.on_close.
    repeat split.
    + intros ->. reflexivity.
    + intros -> ->. reflexivity.
    + intros -> ->. reflexivity.
    + discriminate.
    + destruct (negb (isQuitting st) && is_nonzero code)%bool; reflexivity.
Qed.

(** Witness for C8: the application exits with code 2 while the flag is
    unset, and the database exits with code 1 after [before-quit]. *)
Lemma close_crash_notification_witness :
  let disk := {| dataDir := true; pidFile := false; initMarker := Some "done" |} in
  dialogs (Supervisor.env_of Application
             (Supervisor.role_event Application (OnClose (Some 2))
                (Supervisor.startListmonk_spawn 54321 (boot disk))))
    = [Supervisor.lm_crash_dialog]
  /\
  dialogs (Supervisor.env_of Database
             (Supervisor.role_event Database (OnClose (Some 1))
                (Supervisor.startPostgres_spawn 54321
                   (Shutdown.before_quit (boot disk)))))
    = [].
Proof.
  intros disk. split.
  - exact (proj1 (proj2 (close_crash_notification Application (Some 2)
                           (Supervisor.startListmonk_spawn 54321 (boot disk))))
                 eq_refl eq_refl).
  - exact (proj1 (close_crash_notification Database (Some 1)
                    (Supervisor.startPostgres_spawn 54321
                       (Shutdown.before_quit (boot disk))))
                 eq_refl).
Defined.

(** ** Startup pipeline *)

Section Frame.

Variables S A X : Type.
Variable handler : proc_event -> S * promise A -> S * promise A.
Variable quiet : proc_event -> bool.
Variable view : S -> X.

(** A part of the state that no handler writes is the same after any
    delivery. *)
Lemma deliver_frame :
  (forall ev c, view (fst (handler ev c)) = view (fst c)) ->
  forall evs c,
    view (fst (fst (deliver_until_settled handler evs c))) = view (fst c).
Proof.
  intros Hframe evs. induction evs as [|ev evs IH]; intros c;
    cbn [deliver_until_settled].
  - reflexivity.
  - destruct (settled (snd (handler ev c))); cbn [fst].
    + apply Hframe.
    + rewrite IH. apply Hframe.
Qed.

(** A stream without error and without readiness line leaves the promise
    pending when it ends. *)
Lemma quiet_stream_pending :
  (forall ev c, quiet ev = true -> snd c = Pending ->
                snd (handler ev c) = Pending) ->
  forall evs c,
    forallb quiet evs = true -> snd c = Pending ->
    snd (fst (deliver_until_settled handler evs c)) = Pending.
Proof.
  intros Hquiet evs. induction evs as [|ev evs IH]; intros c Hq Hc;
    cbn [deliver_until_settled].
  - exact Hc.
  - cbn [forallb] in Hq. apply andb_true_iff in Hq as [Hev Hrest].
    rewrite (Hquiet ev c Hev Hc). cbn [settled]. apply IH; auto.
Qed.

End Frame.

Lemma pg_event_mainWindow (ev : proc_event) (c : env * promise unit) :
  mainWindow (fst (Supervisor.pg_event ev c)) = mainWindow (fst c).
Proof.
  destruct c as [st p]. destruct ev; cbn; try reflexivity.
  unfold Supervisor.on_close. destruct (_ && _)%bool; reflexivity.
Qed.

Lemma lm_event_mainWindow (ev : proc_event)
    (c : (env * option string) * promise (option string)) :
  mainWindow (fst (fst (Supervisor.lm_event ev c))) = mainWindow (fst (fst c)).
Proof.
  destruct c as [[st v] p]. destruct ev; cbn; try reflexivity.
  - destruct (Scan.lm_match _); reflexivity.
  - unfold Supervisor.on_close. destruct (_ && _)%bool; reflexivity.
Qed.

Lemma startPostgres_mainWindow (port : Z) (evs : list proc_event) (st : env) :
  mainWindow (snd (fst (Supervisor.startPostgres port evs st))) = mainWindow st.
Proof.
  unfold Supervisor.startPostgres.
  pose proof (deliver_frame _ _ _ Supervisor.pg_event mainWindow
                pg_event_mainWindow evs
                (Supervisor.startPostgres_spawn port st)) as H.
  destruct (deliver_until_settled _ _ _) as [[st' p] rest]. exact H.
Qed.

Lemma startListmonk_mainWindow (port : Z) (evs : list proc_event) (st : env) :
  mainWindow (snd (fst (Supervisor.startListmonk port evs st))) = mainWindow st.
Proof.
  unfold Supervisor.startListmonk.
  pose proof (deliver_frame _ _ _ Supervisor.lm_event
                (fun s => mainWindow (fst s))
                lm_event_mainWindow evs
                (Supervisor.startListmonk_spawn port st)) as H.
  destruct (deliver_until_settled _ _ _) as [[[st' v] p] rest]. exact H.
Qed.

(** An application child that prints no readiness line on standard
    output and reports no spawn error leaves [startListmonk] pending for
    ever, whether it exits or not. *)
Lemma startListmonk_quiet (port : Z) (evs : list proc_event) (st : env) :
  lm_quiet evs = true ->
  fst (fst (Supervisor.startListmonk port evs st)) = NeverSettles.
Proof.
  intros Hq. rewrite startListmonk_result.
  rewrite (quiet_stream_pending _ _ Supervisor.lm_event _ lm_quiet_pending
             evs (Supervisor.startListmonk_spawn port st) Hq eq_refl).
  reflexivity.
Qed.

(** C2, evaluated on every run.  When the application child prints no
    readiness line on standard output and reports no spawn error, the
    handler never reaches [createWindow]: no address, default or other,
    is given to the window, whatever happens in the earlier steps and
    whether the child exits or not. *)
Theorem no_fallback_without_readiness (w : Pipeline.world) (st : env) :
  lm_quiet (Pipeline.listmonk_events w) = true ->
  fst (Pipeline.whenReady w st) <> Pipeline.WindowShown /\
  mainWindow (snd (Pipeline.whenReady w st)) = mainWindow st.
Proof.
  intros Hq. unfold Pipeline.whenReady.
  destruct (StorageInit.init_result _); cbn [fst snd];
    try (split; [discriminate | reflexivity]).
  destruct (fst (PortAllocator.findFreePort _ _ _)) as [pgPort | e];
    cbn [fst snd]; try (split; [discriminate | reflexivity]).
  pose proof (startPostgres_mainWindow pgPort (Pipeline.postgres_events w)
                (set_fs (StorageInit.init_fs
                           (StorageInit.initDbIfNeeded (Pipeline.unlink_ok w)
                              (Pipeline.initdb_events w) (fs st))) st)) as HC.
  destruct (Supervisor.startPostgres _ _ _) as [[rC stC] restC].
  cbn [fst snd] in HC. cbn [mainWindow set_fs] in HC.
  destruct rC; cbn [fst snd];
    try (split; [discriminate | exact HC]).
  destruct (Pipeline.installListmonk w); cbn [fst snd];
    try (split; [discriminate | exact HC]).
  pose proof (startListmonk_quiet pgPort _ stC Hq) as HE.
  pose proof (startListmonk_mainWindow pgPort (Pipeline.listmonk_events w) stC)
    as HW.
  destruct (Supervisor.startListmonk _ _ _) as [[rE stE] restE].
  cbn [fst snd] in HE, HW. subst rE. cbn [fst snd].
  split; [discriminate | congruence].
Qed.

(** Witness for C2: a fresh launch where every earlier step succeeds and
    the application prints nothing recognizable and exits with code 0:
    the run hangs at step E, no window address is set, no dialog is
    shown and the app does not quit. *)
Lemma no_fallback_without_readiness_witness :
  let fresh := {| dataDir := false; pidFile := false; initMarker := None |} in
  let w :=
    {| Pipeline.unlink_ok := true;
       Pipeline.initdb_events := [OnClose (Some 0)];
       Pipeline.port_free := fun _ => true;
       Pipeline.postgres_events :=
         [StderrData "LOG:  database system is ready to accept connections"];
       Pipeline.install_err := None;
       Pipeline.listmonk_events :=
         [StderrData "starting"; OnClose (Some 0)] |} in
  fst (Pipeline.whenReady w (boot fresh)) = Pipeline.Hung Pipeline.StepE /\
  fst (Pipeline.whenReady w (boot fresh)) <> Pipeline.WindowShown /\
  mainWindow (snd (Pipeline.whenReady w (boot fresh))) = None /\
  dialogs (snd (Pipeline.whenReady w (boot fresh))) = [] /\
  quitRequested (snd (Pipeline.whenReady w (boot fresh))) = false.
Proof.
  intros fresh w.
  destruct (no_fallback_without_readiness w (boot fresh) eq_refl) as [Hv Hw].
  split; [reflexivity|]. split; [exact Hv|]. split; [exact Hw|].
  split; reflexivity.
Defined.

(** ** Shutdown *)

Lemma kill_if_spawned_spec (throws : handle -> kill_arg -> option string)
    (proc : option handle) (st : env) :
  let out := Shutdown.kill_if_spawned throws proc st in
  kills (fst out) = kills st ++ due_calls throws proc /\
  snd out = fallback_failure throws proc /\
  pgProcess (fst out) = pgProcess st /\
  (proc = None -> fst out = st).
Proof.
  destruct proc as [h|]; cbn [Shutdown.kill_if_spawned due_calls
                              fallback_failure].
  - unfold Shutdown.try_kill.
    destruct (throws h WithSIGTERM) as [c1|]; cbn.
    + destruct (throws h NoArgument) as [c2|]; cbn;
        rewrite <- app_assoc; repeat split; discriminate.
    + repeat split; discriminate.
  - cbn. rewrite app_nil_r. repeat split.
Qed.

(** C9, as amended.  [will-quit] calls [kill] first on the application
    handle, then on the database handle; on each handle the graceful call
    comes first and the argument-less call follows exactly when the
    graceful one throws; a handle that is [null] gets no call.  The
    handler raises exactly when the argument-less call itself throws: on
    the application handle the error escapes before the database handle
    is reached, otherwise the outcome is that of the database block.  In
    particular it does not raise when no argument-less call throws, and
    it does nothing when neither child was spawned. *)
Theorem will_quit_order (throws : handle -> kill_arg -> option string)
    (st : env) :
  let app := listmonkProcess st in
  let db := pgProcess st in
  let st' := fst (Shutdown.will_quit throws st) in
  let raised := snd (Shutdown.will_quit throws st) in
  match fallback_failure throws app with
  | Some e =>
      raised = Some e /\
      kills st' = kills st ++ due_calls throws app
  | None =>
      raised = fallback_failure throws db /\
      kills st' = kills st ++ due_calls throws app ++ due_calls throws db
  end
  /\ ((forall h, throws h NoArgument = None) -> raised = None)
  /\ (app = None -> db = None -> st' = st /\ raised = None).
Proof.
  cbn zeta. unfold Shutdown.will_quit.
  destruct (kill_if_spawned_spec throws (listmonkProcess st) st)
    as (Hk1 & Hr1 & Hpg1 & Hnone1).
  destruct (Shutdown.kill_if_spawned throws (listmonkProcess st) st)
    as [st1 r1].
  cbn [fst snd] in Hk1, Hr1, Hpg1, Hnone1.
  destruct (kill_if_spawned_spec throws (pgProcess st1) st1)
    as (Hk2 & Hr2 & _ & Hnone2).
  rewrite Hpg1 in Hk2, Hr2, Hnone2.
  split; [|split].
  - rewrite <- Hr1. destruct r1 as [e|]; cbn [fst snd].
    + split; [reflexivity | exact Hk1].
    + rewrite Hpg1. split; [exact Hr2|].
      rewrite Hk2, Hk1, app_assoc. reflexivity.
  - intros Hquiet.
    assert (Hno : forall proc, fallback_failure throws proc = None).
    { intros [h|]; cbn; [|reflexivity].
      destruct (throws h WithSIGTERM); [|reflexivity].
      now rewrite Hquiet. }
    rewrite Hno in Hr1, Hr2. subst r1. cbn [fst snd]. rewrite Hpg1.
    exact Hr2.
  - intros Happ Hdb. rewrite Happ in Hnone1, Hr1.
    specialize (Hnone1 eq_refl). subst st1. cbn in Hr1. subst r1.
    cbn [fst snd]. rewrite Hdb. cbn. split; reflexivity.
Qed.

(** Witness for C9 (amended): both children spawned and a [kill] that
    never throws. *)
Lemma will_quit_order_witness :
  let disk := {| dataDir := true; pidFile := false; initMarker := Some "done" |} in
  let db := {| h_role := Database; h_pgPort := 54321 |} in
  let app := {| h_role := Application; h_pgPort := 54321 |} in
  let st := set_listmonkProcess (Some app) (set_pgProcess (Some db) (boot disk)) in
  snd (Shutdown.will_quit Shutdown.quiet st) = None /\
  kills (fst (Shutdown.will_quit Shutdown.quiet st))
    = [(app, WithSIGTERM); (db, WithSIGTERM)].
Proof.
  intros disk db app st.
  destruct (will_quit_order Shutdown.quiet st) as (Hcalls & Hquiet & _).
  split.
  - apply Hquiet. intros h. reflexivity.
  - exact (proj2 Hcalls).
Defined.

(** C9, counterexample.  Both children spawned and every call of [kill]
    throws: the error of the argument-less call on the application handle
    escapes [will-quit], and the database handle is never signalled. *)
Lemma will_quit_raises :
  snd (Shutdown.will_quit (fun _ _ => Some "EINVAL")
         (set_listmonkProcess
            (Some {| h_role := Application; h_pgPort := 54321 |})
            (set_pgProcess (Some {| h_role := Database; h_pgPort := 54321 |})
               (boot {| dataDir := true; pidFile := false;
                        initMarker := Some "done" |}))))
    = Some (KillErr "EINVAL")
  /\
  kills (fst (Shutdown.will_quit (fun _ _ => Some "EINVAL")
         (set_listmonkProcess
            (Some {| h_role := Application; h_pgPort := 54321 |})
            (set_pgProcess (Some {| h_role := Database; h_pgPort := 54321 |})
               (boot {| dataDir := true; pidFile := false;
                        initMarker := Some "done" |})))))
    = [({| h_role := Application; h_pgPort := 54321 |}, WithSIGTERM);
       ({| h_role := Application; h_pgPort := 54321 |}, NoArgument)].
Proof. split; reflexivity. Qed.

Lemma pg_event_pgProcess (ev : proc_event) (c : env * promise unit) :
  pgProcess (fst (Supervisor.pg_event ev c)) = pgProcess (fst c).
Proof.
  destruct c as [st p]. destruct ev; cbn; try reflexivity.
  unfold Supervisor.on_close. destruct (_ && _)%bool; reflexivity.
Qed.

(** C10.  [startPostgres] assigns [pgProcess] in the synchronous body of
    its executor, while the readiness promise is still pending and before
    any event of the child is handled, and no event handler clears it.
    Consequently, in a launch whose steps A and B succeed and whose
    database child fails to spawn, the pipeline ends in the startup error
    of step C with [pgProcess] holding the handle and [listmonkProcess]
    still [null]; the shutdown that follows calls [kill('SIGTERM')] on
    that handle. *)
Theorem spawn_failure_keeps_handle (w : Pipeline.world) (disk : storage)
    (pgPort : Z) (err : string) (rest : list proc_event)
    (throws : handle -> kill_arg -> option string) :
  StorageInit.init_result
    (StorageInit.initDbIfNeeded (Pipeline.unlink_ok w)
       (Pipeline.initdb_events w) disk) = Returned tt ->
  fst (PortAllocator.findFreePort (Pipeline.port_free w)
         PortAllocator.default_startPort PortAllocator.default_maxAttempts)
    = inl pgPort ->
  Pipeline.postgres_events w = OnError err :: rest ->
  let h := {| h_role := Database; h_pgPort := pgPort |} in
  (forall st evs,
     pgProcess (fst (Supervisor.startPostgres_spawn pgPort st)) = Some h /\
     snd (Supervisor.startPostgres_spawn pgPort st) = Pending /\
     pgProcess (snd (fst (Supervisor.startPostgres pgPort evs st))) = Some h)
  /\
  let v := fst (Pipeline.whenReady w (boot disk)) in
  let st := snd (Pipeline.whenReady w (boot disk)) in
  v = Pipeline.StartupError Pipeline.StepC (SpawnErr err) /\
  pgProcess st = Some h /\
  listmonkProcess st = None /\
  kills (fst (Shutdown.shutdown throws st)) = due_calls throws (Some h) /\
  In (h, WithSIGTERM) (kills (fst (Shutdown.shutdown throws st))).
Proof.
  intros Hinit Hport Hpg h. split.
  - intros st evs. split; [reflexivity|]. split; [reflexivity|].
    unfold Supervisor.startPostgres.
    pose proof (deliver_frame _ _ _ Supervisor.pg_event pgProcess
                  pg_event_pgProcess evs
                  (Supervisor.startPostgres_spawn pgPort st)) as H.
    destruct (deliver_until_settled _ _ _) as [[st' p] rest']. exact H.
  - unfold Pipeline.whenReady. cbn [fs boot].
    rewrite Hinit, Hport, Hpg. cbn. subst h.
    repeat split.
    + unfold Shutdown.try_kill. cbn.
      destruct (throws _ WithSIGTERM); cbn; [|reflexivity].
      destruct (throws _ NoArgument); reflexivity.
    + unfold Shutdown.try_kill. cbn.
      destruct (throws _ WithSIGTERM); cbn; [|now left].
      destruct (throws _ NoArgument); cbn; now left.
Qed.

(** Witness for C10: an initialized disk, port 54321 free, and a database
    binary that cannot be spawned. *)
Lemma spawn_failure_keeps_handle_witness :
  let disk := {| dataDir := true; pidFile := true; initMarker := Some "done" |} in
  let w :=
    {| Pipeline.unlink_ok := true;
       Pipeline.initdb_events := [];
       Pipeline.port_free := fun _ => true;
       Pipeline.postgres_events :=
         [OnError "spawn postgres ENOENT"; OnClose (Some (-2))];
       Pipeline.install_err := None;
       Pipeline.listmonk_events := [] |} in
  let h := {| h_role := Database; h_pgPort := 54321 |} in
  pgProcess (snd (Pipeline.whenReady w (boot disk))) = Some h /\
  kills (fst (Shutdown.shutdown Shutdown.quiet
                (snd (Pipeline.whenReady w (boot disk)))))
    = [(h, WithSIGTERM)].
Proof.
  intros disk w h.
  destruct (spawn_failure_keeps_handle w disk 54321 "spawn postgres ENOENT"
              [OnClose (Some (-2))] Shutdown.quiet eq_refl eq_refl eq_refl)
    as (_ & _ & Hhandle & _ & Hkills & _).
  split; [exact Hhandle | exact Hkills].
Defined.

(** ** The default address is never used *)

Lemma match_capture_nonempty (lit line captured : string) :
  Scan.match_capture lit line = Some captured -> captured <> EmptyString.
Proof.
  induction line as [|ch line IH]; cbn [Scan.match_capture].
  - destruct (Scan.startsWith lit EmptyString) as [rest|]; [|discriminate].
    destruct (Scan.digits rest) eqn:Hd; [discriminate|].
    intros [= <-]. discriminate.
  - destruct (Scan.startsWith lit (String ch line)) as [rest|]; [|exact IH].
    destruct (Scan.digits rest) eqn:Hd; [exact IH|].
    intros [= <-]. discriminate.
Qed.

Lemma lm_match_nonempty (line captured : string) :
  Scan.lm_match line = Some captured -> captured <> EmptyString.
Proof.
  unfold Scan.lm_match.
  destruct (Scan.match_capture Scan.lm_pattern1 line) eqn:H1.
  - intros [= <-]. eapply match_capture_nonempty; eauto.
  - apply match_capture_nonempty.
Qed.

(** [startListmonk] only ever returns a port captured from a chunk of
    standard output. *)
Lemma lm_fulfilled_by_capture (evs : list proc_event) :
  forall (c : (env * option string) * promise (option string))
         (v : option string),
    snd c = Pending ->
    snd (fst (deliver_until_settled Supervisor.lm_event evs c)) = Fulfilled v ->
    exists line captured,
      In (StdoutData line) evs /\
      Scan.lm_match line = Some captured /\
      v = Some captured.
Proof.
  induction evs as [|ev evs IH]; intros [[st x] p] v Hc; cbn [snd] in Hc;
    subst p; cbn [deliver_until_settled].
  - cbn. discriminate.
  - destruct ev as [err|txt|txt|code]; cbn [Supervisor.lm_event reject].
    + cbn. discriminate.
    + destruct (Scan.lm_match txt) as [captured|] eqn:Hm.
      * cbn. intros [= <-]. exists txt, captured. auto.
      * cbn [snd settled]. intros H.
        destruct (IH (_, Pending) v eq_refl H) as (line & captured & Hin & Hl & Hv).
        exists line, captured. split; [now right | auto].
    + cbn [snd settled]. intros H.
      destruct (IH (_, Pending) v eq_refl H) as (line & captured & Hin & Hl & Hv).
      exists line, captured. split; [now right | auto].
    + cbn [snd settled]. intros H.
      destruct (IH (_, Pending) v eq_refl H) as (line & captured & Hin & Hl & Hv).
      exists line, captured. split; [now right | auto].
Qed.

Lemma or_default_nonempty (s d : string) :
  s <> EmptyString -> or_default (Some s) d = s.
Proof. destruct s; [congruence | reflexivity]. Qed.

(** X15. Whenever the handler reaches [createWindow], the address it
    loads is built from a port captured on the standard output of the
    application child: neither [|| '9000'] ever takes its right-hand
    side. *)
Lemma window_address_is_captured (w : Pipeline.world) (st : env) :
  fst (Pipeline.whenReady w st) = Pipeline.WindowShown ->
  exists line captured,
    In (StdoutData line) (Pipeline.listmonk_events w) /\
    Scan.lm_match line = Some captured /\
    mainWindow (snd (Pipeline.whenReady w st))
      = Some (String.append "http://127.0.0.1:" captured).
Proof.
  unfold Pipeline.whenReady.
  destruct (StorageInit.init_result _); cbn [fst snd]; try discriminate.
  destruct (fst (PortAllocator.findFreePort _ _ _)) as [pgPort | e];
    cbn [fst snd]; try discriminate.
  destruct (Supervisor.startPostgres _ _ _) as [[rC stC] restC].
  destruct rC; cbn [fst snd]; try discriminate.
  destruct (Pipeline.installListmonk w); cbn [fst snd]; try discriminate.
  pose proof (startListmonk_result pgPort (Pipeline.listmonk_events w) stC)
    as HE.
  destruct (Supervisor.startListmonk _ _ _) as [[rE stE] restE].
  cbn [fst snd] in HE.
  destruct rE as [port| |]; cbn [fst snd]; try discriminate.
  intros _.
  destruct (snd (fst (deliver_until_settled Supervisor.lm_event
                        (Pipeline.listmonk_events w)
                        (Supervisor.startListmonk_spawn pgPort stC))))
    as [|v'|e'] eqn:Hp; cbn in HE; try discriminate.
  injection HE as <-.
  destruct (lm_fulfilled_by_capture (Pipeline.listmonk_events w)
              (Supervisor.startListmonk_spawn pgPort stC) _ eq_refl Hp)
    as (line & captured & Hin & Hl & ->).
  exists line, captured. split; [exact Hin|]. split; [exact Hl|].
  pose proof (lm_match_nonempty _ _ Hl) as Hne.
  unfold Pipeline.createWindow. cbn [mainWindow set_mainWindow].
  rewrite (or_default_nonempty captured) by exact Hne.
  rewrite (or_default_nonempty captured) by exact Hne.
  reflexivity.
Qed.

(* ===================================================================== *)
(** * Further properties                                                 *)
(* ===================================================================== *)

Import Observations.

(** ** Text scanning *)

Lemma append_assoc (a b c : string) :
  String.append (String.append a b) c = String.append a (String.append b c).
Proof. induction a as [|ch a IH]; cbn; [reflexivity | now rewrite IH]. Qed.

Lemma startsWith_spec (p s rest : string) :
  Scan.startsWith p s = Some rest <-> s = String.append p rest.
Proof.
  revert s. induction p as [|a p IH]; intros s; cbn.
  - split; [intros [= ->]; reflexivity | intros ->; reflexivity].
  - destruct s as [|b s]; [split; discriminate|].
    destruct (Ascii.eqb_spec a b) as [->|Hne].
    + rewrite IH. split; [intros ->; reflexivity | intros [= ->]; reflexivity].
    + split; [discriminate | intros [= Hab _]; congruence].
Qed.

Lemma includes_spec (line needle : string) :
  Scan.includes line needle = true <->
  exists pre post,
    line = String.append pre (String.append needle post).
Proof.
  split.
  - induction line as [|c line IH]; cbn [Scan.includes].
    + destruct (Scan.startsWith needle EmptyString) as [rest|] eqn:Hs;
        [|discriminate].
      intros _. apply startsWith_spec in Hs.
      exists EmptyString, rest. exact Hs.
    + destruct (Scan.startsWith needle (String c line)) as [rest|] eqn:Hs.
      * intros _. apply startsWith_spec in Hs.
        exists EmptyString, rest. exact Hs.
      * intros H. destruct (IH H) as (pre & post & ->).
        exists (String c pre), post. reflexivity.
  - intros (pre & post & ->).
    induction pre as [|c pre IH]; cbn [String.append].
    + assert (Hs : Scan.startsWith needle (String.append needle post)
                   = Some post) by now apply startsWith_spec.
      destruct (String.append needle post); cbn [Scan.includes];
        now rewrite Hs.
    + cbn [Scan.includes].
      destruct (Scan.startsWith needle _); [reflexivity | exact IH].
Qed.

(** X1. [checkLine] resolves a pending promise exactly when the chunk
    contains the readiness marker as a substring, wherever it stands in
    the chunk; otherwise the promise is left pending. *)
Theorem checkLine_resolves_iff_substring (line : string) :
  (Supervisor.checkLine line Pending = Fulfilled tt <->
   exists pre post,
     line = String.append pre (String.append Scan.pg_ready_marker post))
  /\
  (Supervisor.checkLine line Pending = Fulfilled tt \/
   Supervisor.checkLine line Pending = Pending).
Proof.
  unfold Supervisor.checkLine. rewrite <- includes_spec.
  destruct (Scan.includes line Scan.pg_ready_marker); cbn.
  - split; [split; reflexivity | now left].
  - split; [split; discriminate | now right].
Qed.

Lemma digits_spec (s : string) :
  exists rest,
    s = String.append (Scan.digits s) rest /\
    all_digits (Scan.digits s) = true /\
    starts_with_digit rest = false.
Proof.
  induction s as [|c s IH]; cbn [Scan.digits].
  - exists EmptyString. repeat split.
  - destruct (Scan.is_digit c) eqn:Hc.
    + destruct IH as (rest & Hs & Hd & Hr).
      exists rest. cbn. rewrite Hc, Hd, <- Hs. repeat split. exact Hr.
    + exists (String c s). cbn. rewrite Hc. repeat split.
Qed.

Lemma digits_head (c : ascii) (s : string) :
  Scan.is_digit c = true -> Scan.digits (String c s) <> EmptyString.
Proof. intros Hc. cbn. rewrite Hc. discriminate. Qed.

(** What a capture is: a non-empty, maximal run of digits standing right
    after the literal somewhere in the chunk. *)
Lemma match_capture_sound (lit line captured : string) :
  Scan.match_capture lit line = Some captured ->
  captured <> EmptyString /\
  all_digits captured = true /\
  exists pre rest,
    line = String.append pre (String.append lit (String.append captured rest)) /\
    starts_with_digit rest = false.
Proof.
  assert (Hhere : forall l rest0,
            Scan.startsWith lit l = Some rest0 ->
            Scan.digits rest0 = captured ->
            exists pre rest,
              l = String.append pre
                    (String.append lit (String.append captured rest)) /\
              starts_with_digit rest = false).
  { intros l rest0 Hs Hd. apply startsWith_spec in Hs.
    destruct (digits_spec rest0) as (rest & Hr & _ & Hnd).
    exists EmptyString, rest. rewrite <- Hd, <- Hr. split; [exact Hs|exact Hnd]. }
  assert (Hall : forall rest0, Scan.digits rest0 = captured ->
                               all_digits captured = true).
  { intros rest0 <-. destruct (digits_spec rest0) as (_ & _ & Hd & _).
    exact Hd. }
  induction line as [|ch line IH]; cbn [Scan.match_capture].
  - destruct (Scan.startsWith lit EmptyString) as [rest0|] eqn:Hs;
      [|discriminate].
    destruct (Scan.digits rest0) eqn:Hd; [discriminate|].
    intros [= <-]. split; [discriminate|]. split; eauto.
  - destruct (Scan.startsWith lit (String ch line)) as [rest0|] eqn:Hs.
    + destruct (Scan.digits rest0) eqn:Hd.
      * intros H. destruct (IH H) as (Hne & Hdig & pre & rest & -> & Hr).
        split; [exact Hne|]. split; [exact Hdig|].
        exists (String ch pre), rest. split; [reflexivity | exact Hr].
      * intros [= <-]. split; [discriminate|]. split; eauto.
    + intros H. destruct (IH H) as (Hne & Hdig & pre & rest & -> & Hr).
      split; [exact Hne|]. split; [exact Hdig|].
      exists (String ch pre), rest. split; [reflexivity | exact Hr].
Qed.

(** A literal followed by a digit anywhere in the chunk is found. *)
Lemma match_capture_complete (lit pre rest : string) (c : ascii) :
  Scan.is_digit c = true ->
  Scan.match_capture lit
    (String.append pre (String.append lit (String c rest))) <> None.
Proof.
  intros Hc.
  assert (Hs : Scan.startsWith lit (String.append lit (String c rest))
               = Some (String c rest)) by now apply startsWith_spec.
  induction pre as [|ch pre IH]; cbn [String.append].
  - destruct (String.append lit (String c rest)) eqn:Hl;
      cbn [Scan.match_capture]; rewrite Hs; cbn [Scan.digits];
      rewrite Hc; discriminate.
  - clear Hs. cbn [Scan.match_capture].
    destruct (Scan.startsWith lit _) as [rest0|]; [|exact IH].
    destruct (Scan.digits rest0); [exact IH | discriminate].
Qed.

(** X2. A port captured by the readiness scan of [startListmonk] is a
    non-empty string of decimal digits that stands in the chunk right
    after one of the two literals and is not followed by a further digit.
    Nothing else is checked: the capture has no bound on its length or
    value. *)
Theorem lm_match_sound (line captured : string) :
  Scan.lm_match line = Some captured ->
  captured <> EmptyString /\
  all_digits captured = true /\
  exists lit pre rest,
    (lit = Scan.lm_pattern1 \/ lit = Scan.lm_pattern2) /\
    line = String.append pre (String.append lit (String.append captured rest)) /\
    starts_with_digit rest = false.
Proof.
  unfold Scan.lm_match.
  destruct (Scan.match_capture Scan.lm_pattern1 line) as [d|] eqn:H1.
  - intros [= <-].
    destruct (match_capture_sound _ _ _ H1) as (Hne & Hd & pre & rest & Hl & Hr).
    repeat split; auto. exists Scan.lm_pattern1, pre, rest. auto.
  - intros H2.
    destruct (match_capture_sound _ _ _ H2) as (Hne & Hd & pre & rest & Hl & Hr).
    repeat split; auto. exists Scan.lm_pattern2, pre, rest. auto.
Qed.

(** Witness for X2: the second pattern, with text before and after. *)
Lemma lm_match_sound_witness :
  all_digits "8042" = true /\
  Scan.lm_match
    "2024/01/01 Web server listening on http://127.0.0.1:8042 (ok)"
  = Some "8042".
Proof.
  split.
  - exact (proj1 (proj2 (lm_match_sound
      "2024/01/01 Web server listening on http://127.0.0.1:8042 (ok)"
      "8042" eq_refl))).
  - reflexivity.
Defined.

(** X3. The scan of [startListmonk] finds a port exactly when one of the
    two literals occurs in the chunk directly followed by a digit; and
    when the first pattern matches anywhere, its capture is the result
    even if the second pattern occurs earlier in the chunk. *)
Theorem lm_match_complete (line : string) :
  (Scan.lm_match line <> None <->
   exists lit pre c rest,
     (lit = Scan.lm_pattern1 \/ lit = Scan.lm_pattern2) /\
     Scan.is_digit c = true /\
     line = String.append pre (String.append lit (String c rest)))
  /\
  (forall captured,
     Scan.match_capture Scan.lm_pattern1 line = Some captured ->
     Scan.lm_match line = Some captured).
Proof.
  split.
  - split.
    + destruct (Scan.lm_match line) as [d|] eqn:Hm; [|congruence].
      intros _.
      destruct (lm_match_sound _ _ Hm)
        as (Hne & Hd & lit & pre & rest & Hlit & Hl & _).
      destruct d as [|c d]; [congruence|].
      cbn in Hd. apply andb_true_iff in Hd as [Hc _].
      exists lit, pre, c, (String.append d rest). auto.
    + intros (lit & pre & c & rest & Hlit & Hc & ->).
      unfold Scan.lm_match.
      destruct Hlit as [-> | ->].
      * pose proof (match_capture_complete Scan.lm_pattern1 pre rest c Hc).
        destruct (Scan.match_capture Scan.lm_pattern1 _); congruence.
      * pose proof (match_capture_complete Scan.lm_pattern2 pre rest c Hc).
        destruct (Scan.match_capture Scan.lm_pattern1 _); [discriminate|].
        exact H.
  - intros captured H. unfold Scan.lm_match. now rewrite H.
Qed.

(** Witness for X3: a chunk holding both lines, the second pattern
    first; the port of the first pattern is the one captured. *)
Lemma lm_match_complete_witness :
  Scan.lm_match
    "Web server listening on http://127.0.0.1:1111; http server started on 127.0.0.1:2222"
  = Some "2222".
Proof.
  exact (proj2 (lm_match_complete
    "Web server listening on http://127.0.0.1:1111; http server started on 127.0.0.1:2222")
    "2222" eq_refl).
Defined.

(** ** Supervised children: waiting, failing, logging *)

Section FirstSettlement.

Variables S A : Type.
Variable handler : proc_event -> S * promise A -> S * promise A.
Variable quiet : proc_event -> bool.

Hypothesis stable :
  forall ev c, settled (snd c) = true -> snd (handler ev c) = snd c.
Hypothesis quiet_pending :
  forall ev c, quiet ev = true -> snd c = Pending ->
               snd (handler ev c) = Pending.
Hypothesis loud_settles :
  forall ev c, quiet ev = false -> snd c = Pending ->
               settled (snd (handler ev c)) = true.

(** The promise is still pending at the end of a stream only if every
    event of the stream was quiet. *)
Lemma pending_only_if_quiet (evs : list proc_event) :
  forall c : S * promise A,
    snd c = Pending ->
    snd (fst (deliver_until_settled handler evs c)) = Pending ->
    forallb quiet evs = true.
Proof.
  induction evs as [|ev evs IH]; intros c Hc; cbn [deliver_until_settled forallb].
  - reflexivity.
  - destruct (quiet ev) eqn:Hq.
    + rewrite (quiet_pending ev c Hq Hc). cbn [settled andb].
      apply IH. now apply quiet_pending.
    + pose proof (loud_settles ev c Hq Hc) as Hs. rewrite Hs. cbn [fst].
      intros Hp. rewrite Hp in Hs. discriminate.
Qed.

(** Whatever the first event that settles the promise makes of it stays:
    it is the state at the end of the stream, the only settlement, and
    what an [await] started before the stream sees. *)
Lemma first_settlement_final (pre post : list proc_event) (ev : proc_event)
    (p : promise A) (c : S * promise A) :
  forallb quiet pre = true ->
  snd c = Pending ->
  settled p = true ->
  (forall c', snd c' = Pending -> snd (handler ev c') = p) ->
  snd (deliver_all handler (pre ++ ev :: post) c) = p /\
  settle_count handler (pre ++ ev :: post) c = 1%nat /\
  snd (fst (deliver_until_settled handler (pre ++ ev :: post) c)) = p.
Proof.
  intros Hq Hc Hp Hev.
  destruct (quiet_prefix _ _ handler quiet quiet_pending pre c Hq Hc)
    as [Hpre Hcount].
  pose proof (Hev _ Hpre) as Hhit.
  assert (Hset : settled (snd (handler ev (deliver_all handler pre c))) = true)
    by (rewrite Hhit; exact Hp).
  destruct (settled_forever _ _ handler stable post _ Hset)
    as [Hpost Hcount'].
  split; [|split].
  - rewrite deliver_all_app.
    change (deliver_all handler (ev :: post) (deliver_all handler pre c))
      with (deliver_all handler post (handler ev (deliver_all handler pre c))).
    now rewrite Hpost.
  - rewrite settle_count_app, Hcount. cbn [settle_count].
    rewrite Hcount', Hpre, Hset. reflexivity.
  - clear Hpost Hcount' Hcount Hset Hhit Hpre.
    revert c Hq Hc. induction pre as [|x pre IH]; intros c Hq Hc;
      cbn [app deliver_until_settled].
    + rewrite (Hev _ Hc), Hp. cbn [fst]. now apply Hev.
    + cbn [forallb] in Hq. apply andb_true_iff in Hq as [Hx Hrest].
      rewrite (quiet_pending x c Hx Hc). cbn [settled].
      apply IH; auto.
Qed.

End FirstSettlement.

Lemma pg_loud_settles (ev : proc_event) (c : env * promise unit) :
  (negb (is_error ev) && negb (pg_ready_line ev))%bool = false ->
  snd c = Pending -> settled (snd (Supervisor.pg_event ev c)) = true.
Proof.
  destruct c as [st p]; cbn [snd]; intros Hq ->.
  destruct ev; cbn in *; try discriminate; try reflexivity;
    unfold Supervisor.checkLine;
    apply negb_false_iff in Hq; rewrite Hq; reflexivity.
Qed.

Lemma lm_loud_settles (ev : proc_event)
    (c : (env * option string) * promise (option string)) :
  (negb (is_error ev) && negb (lm_ready_line ev))%bool = false ->
  snd c = Pending -> settled (snd (Supervisor.lm_event ev c)) = true.
Proof.
  destruct c as [[st v] p]; cbn [snd]; intros Hq ->.
  destruct ev; cbn in *; try discriminate; try reflexivity.
  destruct (Scan.lm_match txt); [reflexivity | discriminate].
Qed.

(** X4. Each [await] on a supervised child waits for ever exactly when
    the child reports no spawn error and prints no readiness line on a
    scanned stream, whether or not it exits and with whatever code:
    there is no timeout and the exit settles nothing.  Chunks are matched
    one by one, so a marker split over two chunks goes unseen. *)
Theorem await_hangs_iff_quiet (port : Z) (evs : list proc_event) (st : env) :
  (fst (fst (Supervisor.startPostgres port evs st)) = NeverSettles <->
   pg_quiet evs = true)
  /\
  (fst (fst (Supervisor.startListmonk port evs st)) = NeverSettles <->
   lm_quiet evs = true).
Proof.
  rewrite startPostgres_result, startListmonk_result. split; split.
  - intros H. apply (pending_only_if_quiet _ _ Supervisor.pg_event _
                       pg_quiet_pending pg_loud_settles evs
                       (Supervisor.startPostgres_spawn port st) eq_refl).
    destruct (snd (fst (deliver_until_settled _ _ _)));
      [reflexivity | discriminate | discriminate].
  - intros Hq.
    rewrite (quiet_stream_pending _ _ Supervisor.pg_event _ pg_quiet_pending
               evs (Supervisor.startPostgres_spawn port st) Hq eq_refl).
    reflexivity.
  - intros H. apply (pending_only_if_quiet _ _ Supervisor.lm_event _
                       lm_quiet_pending lm_loud_settles evs
                       (Supervisor.startListmonk_spawn port st) eq_refl).
    destruct (snd (fst (deliver_until_settled _ _ _)));
      [reflexivity | discriminate | discriminate].
  - intros Hq.
    rewrite (quiet_stream_pending _ _ Supervisor.lm_event _ lm_quiet_pending
               evs (Supervisor.startListmonk_spawn port st) Hq eq_refl).
    reflexivity.
Qed.

(** Witness for X4: the database prints the marker split over two chunks
    and then exits with code 0; the [await] never returns. *)
Lemma await_hangs_iff_quiet_witness :
  Scan.includes
    (String.append "LOG:  database system is ready "
                   "to accept connections")
    Scan.pg_ready_marker = true /\
  fst (fst (Supervisor.startPostgres 54321
              [StderrData "LOG:  database system is ready ";
               StderrData "to accept connections";
               OnClose (Some 0)]
              (boot {| dataDir := true; pidFile := false;
                       initMarker := Some "done" |}))) = NeverSettles.
Proof.
  split; [reflexivity|].
  exact (proj2 (proj1 (await_hangs_iff_quiet 54321
                         [StderrData "LOG:  database system is ready ";
                          StderrData "to accept connections";
                          OnClose (Some 0)]
                         (boot {| dataDir := true; pidFile := false;
                                  initMarker := Some "done" |})))
               eq_refl).
Defined.

(** X5. A spawn error that comes before any readiness line is final for
    both children: the promise is rejected with that error exactly once,
    the [await] throws it, and no readiness line printed afterwards
    resolves the promise. *)
Theorem spawn_error_is_final (port : Z) (st : env)
    (pre post : list proc_event) (err : string) :
  (pg_quiet pre = true ->
   let evs := pre ++ OnError err :: post in
   let c0 := Supervisor.startPostgres_spawn port st in
   snd (deliver_all Supervisor.pg_event evs c0) = Rejected (SpawnErr err) /\
   settle_count Supervisor.pg_event evs c0 = 1%nat /\
   fst (fst (Supervisor.startPostgres port evs st)) = Threw (SpawnErr err))
  /\
  (lm_quiet pre = true ->
   let evs := pre ++ OnError err :: post in
   let c0 := Supervisor.startListmonk_spawn port st in
   snd (deliver_all Supervisor.lm_event evs c0) = Rejected (SpawnErr err) /\
   settle_count Supervisor.lm_event evs c0 = 1%nat /\
   fst (fst (Supervisor.startListmonk port evs st)) = Threw (SpawnErr err)).
Proof.
  split.
  - intros Hq evs c0. subst evs c0. rewrite startPostgres_result.
    destruct (first_settlement_final _ _ Supervisor.pg_event _ pg_stable
                pg_quiet_pending pre post (OnError err)
                (Rejected (SpawnErr err))
                (Supervisor.startPostgres_spawn port st) Hq eq_refl eq_refl)
      as (H1 & H2 & H3).
    { intros [st' p'] Hp'. cbn [snd] in Hp'. subst p'. reflexivity. }
    rewrite H3. auto.
  - intros Hq evs c0. subst evs c0. rewrite startListmonk_result.
    destruct (first_settlement_final _ _ Supervisor.lm_event _ lm_stable
                lm_quiet_pending pre post (OnError err)
                (Rejected (SpawnErr err))
                (Supervisor.startListmonk_spawn port st) Hq eq_refl eq_refl)
      as (H1 & H2 & H3).
    { intros [[st' v'] p'] Hp'. cbn [snd] in Hp'. subst p'. reflexivity. }
    rewrite H3. auto.
Qed.

(** Witness for X5: a spawn error of the application followed by a
    readiness line. *)
Lemma spawn_error_is_final_witness :
  snd (deliver_all Supervisor.lm_event
         ([] ++ OnError "spawn listmonk EACCES"
             :: [StdoutData "http server started on 127.0.0.1:8042"])
         (Supervisor.startListmonk_spawn 54321
            (boot {| dataDir := true; pidFile := false;
                     initMarker := Some "done" |})))
  = Rejected (SpawnErr "spawn listmonk EACCES").
Proof.
  exact (proj1 (proj2 (spawn_error_is_final 54321
                         (boot {| dataDir := true; pidFile := false;
                                  initMarker := Some "done" |})
                         [] [StdoutData "http server started on 127.0.0.1:8042"]
                         "spawn listmonk EACCES") eq_refl)).
Defined.

Lemma pg_event_flag (ev : proc_event) (c : env * promise unit) :
  isQuitting (fst (Supervisor.pg_event ev c)) = isQuitting (fst c) /\
  (isQuitting (fst c) = true ->
   dialogs (fst (Supervisor.pg_event ev c)) = dialogs (fst c)).
Proof.
  destruct c as [st p]. destruct ev; cbn; auto.
  unfold Supervisor.on_close.
  destruct (isQuitting st) eqn:Hq; cbn; [auto|].
  destruct (is_nonzero code); cbn; split; auto; discriminate.
Qed.

Lemma lm_event_flag (ev : proc_event)
    (c : (env * option string) * promise (option string)) :
  isQuitting (fst (fst (Supervisor.lm_event ev c))) = isQuitting (fst (fst c)) /\
  (isQuitting (fst (fst c)) = true ->
   dialogs (fst (fst (Supervisor.lm_event ev c))) = dialogs (fst (fst c))).
Proof.
  destruct c as [[st v] p]. destruct ev; cbn; auto.
  - destruct (Scan.lm_match _); cbn; auto.
  - unfold Supervisor.on_close.
    destruct (isQuitting st) eqn:Hq; cbn; [auto|].
    destruct (is_nonzero code); cbn; split; auto; discriminate.
Qed.

(** X7. No handler of a child ever writes [isQuitting]; so once
    [before-quit] has set it, no sequence of later events of either
    child (exits with any code, errors, output) adds a dialog. *)
Theorem quitting_silences_children (evs : list proc_event) :
  (forall c : env * promise unit,
     let c' := deliver_all Supervisor.pg_event evs c in
     isQuitting (fst c') = isQuitting (fst c) /\
     (isQuitting (fst c) = true -> dialogs (fst c') = dialogs (fst c)))
  /\
  (forall c : (env * option string) * promise (option string),
     let c' := deliver_all Supervisor.lm_event evs c in
     isQuitting (fst (fst c')) = isQuitting (fst (fst c)) /\
     (isQuitting (fst (fst c)) = true ->
      dialogs (fst (fst c')) = dialogs (fst (fst c)))).
Proof.
  split.
  - induction evs as [|ev evs IH]; intros c; cbn zeta.
    + cbn. auto.
    + change (deliver_all Supervisor.pg_event (ev :: evs) c)
        with (deliver_all Supervisor.pg_event evs (Supervisor.pg_event ev c)).
      destruct (IH (Supervisor.pg_event ev c)) as [Hf Hd].
      destruct (pg_event_flag ev c) as [Hf1 Hd1].
      split; [congruence|]. intros Hq.
      rewrite Hd by congruence. auto.
  - induction evs as [|ev evs IH]; intros c; cbn zeta.
    + cbn. auto.
    + change (deliver_all Supervisor.lm_event (ev :: evs) c)
        with (deliver_all Supervisor.lm_event evs (Supervisor.lm_event ev c)).
      destruct (IH (Supervisor.lm_event ev c)) as [Hf Hd].
      destruct (lm_event_flag ev c) as [Hf1 Hd1].
      split; [congruence|]. intros Hq.
      rewrite Hd by congruence. auto.
Qed.

(** Witness for X7: after [before-quit] the database is killed by a
    signal and the close reports no code; nothing is shown. *)
Lemma quitting_silences_children_witness :
  dialogs (fst (deliver_all Supervisor.pg_event
                  [StderrData "received fast shutdown request"; OnClose None]
                  (Supervisor.startPostgres_spawn 54321
                     (Shutdown.before_quit
                        (boot {| dataDir := true; pidFile := false;
                                 initMarker := Some "done" |})))))
  = [].
Proof.
  exact (proj2 (proj1 (quitting_silences_children
                         [StderrData "received fast shutdown request";
                          OnClose None])
                 (Supervisor.startPostgres_spawn 54321
                    (Shutdown.before_quit
                       (boot {| dataDir := true; pidFile := false;
                                initMarker := Some "done" |}))))
               eq_refl).
Defined.

(** ** Storage initializer: what every run leaves behind *)

(** The promise and the undelivered events of the bootstrap child depend
    on its events only, not on the disk. *)
Lemma initdb_outcome_indep (evs : list proc_event) (s t : storage) :
  snd (fst (deliver_until_settled StorageInit.initdb_event evs (s, Pending)))
  = snd (fst (deliver_until_settled StorageInit.initdb_event evs (t, Pending)))
  /\
  snd (deliver_until_settled StorageInit.initdb_event evs (s, Pending))
  = snd (deliver_until_settled StorageInit.initdb_event evs (t, Pending)).
Proof.
  induction evs as [|ev evs IH]; cbn [deliver_until_settled].
  - split; reflexivity.
  - destruct ev as [err|txt|txt|code]; cbn [StorageInit.initdb_event].
    + cbn. split; reflexivity.
    + cbn [snd settled]. exact IH.
    + cbn [snd settled]. exact IH.
    + destruct (is_zero code); cbn; split; reflexivity.
Qed.

(** X8. Whatever the bootstrap child does, when [initDbIfNeeded] returns,
    throws or hangs: the data directory exists; the lock file is there
    only if it was there and could not be removed; the call succeeded
    exactly when the marker is present; and a marker that was present
    before is never rewritten, the call then succeeds without spawning
    anything. *)
Theorem initDbIfNeeded_leaves (u : bool) (evs : list proc_event)
    (s : storage) :
  let run := StorageInit.initDbIfNeeded u evs s in
  dataDir (StorageInit.init_fs run) = true /\
  pidFile (StorageInit.init_fs run) = (pidFile s && negb u)%bool /\
  (StorageInit.init_result run = Returned tt <->
   StorageInit.marker_exists (StorageInit.init_fs run) = true) /\
  (StorageInit.marker_exists s = true ->
   initMarker (StorageInit.init_fs run) = initMarker s /\
   StorageInit.init_spawned run = 0%nat /\
   StorageInit.init_result run = Returned tt).
Proof.
  cbn zeta. unfold StorageInit.initDbIfNeeded.
  set (s1 := StorageInit.cleanLeftoverLockFile u (StorageInit.ensure_dataDir s)).
  assert (Hdir : dataDir s1 = true).
  { subst s1. unfold StorageInit.cleanLeftoverLockFile,
      StorageInit.ensure_dataDir.
    destruct s as [[|] [|] m]; destruct u; reflexivity. }
  assert (Hpid : pidFile s1 = (pidFile s && negb u)%bool).
  { subst s1. unfold StorageInit.cleanLeftoverLockFile,
      StorageInit.ensure_dataDir.
    destruct s as [[|] [|] m]; destruct u; reflexivity. }
  assert (Hmark : initMarker s1 = initMarker s).
  { subst s1. unfold StorageInit.cleanLeftoverLockFile,
      StorageInit.ensure_dataDir.
    destruct s as [[|] [|] m]; destruct u; reflexivity. }
  pose proof (marker_after_cleanup u s) as Hm. fold s1 in Hm.
  destruct (StorageInit.marker_exists s1) eqn:Hs1.
  - cbn. repeat split; auto.
  - pose proof (initdb_delivery evs s1) as Hd.
    destruct (deliver_until_settled StorageInit.initdb_event evs (s1, Pending))
      as [[s2 p] rest].
    cbn [StorageInit.init_fs StorageInit.init_result
         StorageInit.init_spawned].
    destruct p as [|[]|e]; subst s2; cbn [await];
      (split; [cbn; exact Hdir|]); (split; [cbn; exact Hpid|]);
      (split; [|intros Hx; rewrite <- Hm in Hx; discriminate]).
    + rewrite Hs1. split; discriminate.
    + split; reflexivity.
    + rewrite Hs1. split; discriminate.
Qed.

(** Witness for X8: an initialized disk with a stale lock that cannot be
    removed, and a bootstrap command that would fail if it were run. *)
Lemma initDbIfNeeded_leaves_witness :
  StorageInit.init_spawned
    (StorageInit.initDbIfNeeded false [OnClose (Some 1)]
       {| dataDir := true; pidFile := true; initMarker := Some "done" |})
  = 0%nat.
Proof.
  exact (proj1 (proj2 (proj2 (proj2 (proj2
    (initDbIfNeeded_leaves false [OnClose (Some 1)]
       {| dataDir := true; pidFile := true; initMarker := Some "done" |})))
    eq_refl))).
Defined.

(** X9. A lock file that cannot be removed is not fatal: whether
    [fs.unlinkSync] succeeds or throws, [initDbIfNeeded] has the same
    outcome, spawns the bootstrap command as often, and leaves the same
    marker and the same undelivered events; only the lock file itself
    differs, left in place when the removal throws. *)
Theorem unlink_failure_not_fatal (evs : list proc_event) (s : storage) :
  let ok := StorageInit.initDbIfNeeded true evs s in
  let ko := StorageInit.initDbIfNeeded false evs s in
  StorageInit.init_result ko = StorageInit.init_result ok /\
  StorageInit.init_spawned ko = StorageInit.init_spawned ok /\
  initMarker (StorageInit.init_fs ko) = initMarker (StorageInit.init_fs ok) /\
  StorageInit.init_pending ko = StorageInit.init_pending ok /\
  pidFile (StorageInit.init_fs ko) = pidFile s /\
  pidFile (StorageInit.init_fs ok) = false.
Proof.
  cbn zeta. unfold StorageInit.initDbIfNeeded.
  rewrite !marker_after_cleanup.
  set (a := StorageInit.cleanLeftoverLockFile true (StorageInit.ensure_dataDir s)).
  set (b := StorageInit.cleanLeftoverLockFile false (StorageInit.ensure_dataDir s)).
  assert (Hab : initMarker b = initMarker a /\ pidFile b = pidFile s /\
                pidFile a = false).
  { subst a b. unfold StorageInit.cleanLeftoverLockFile,
      StorageInit.ensure_dataDir.
    destruct s as [[|] [|] m]; repeat split. }
  destruct Hab as (Hm & Hpb & Hpa).
  destruct (StorageInit.marker_exists s).
  - cbn. repeat split; auto.
  - pose proof (initdb_outcome_indep evs b a) as [Hp Hr].
    pose proof (initdb_delivery evs a) as Ha.
    pose proof (initdb_delivery evs b) as Hb.
    destruct (deliver_until_settled StorageInit.initdb_event evs (a, Pending))
      as [[a2 pa] ra].
    destruct (deliver_until_settled StorageInit.initdb_event evs (b, Pending))
      as [[b2 pb] rb].
    cbn [fst snd] in Hp, Hr. subst pb rb.
    cbn [StorageInit.init_fs StorageInit.init_result
         StorageInit.init_spawned StorageInit.init_pending].
    destruct pa; subst a2 b2; cbn; repeat split; auto.
Qed.

Lemma initdb_output_pending (ev : proc_event) (c : storage * promise unit) :
  match ev with StdoutData _ | StderrData _ => true | _ => false end = true ->
  snd c = Pending -> snd (StorageInit.initdb_event ev c) = Pending.
Proof.
  destruct c as [s p]; cbn [snd]; intros Hq ->.
  destruct ev; cbn in *; try discriminate; reflexivity.
Qed.

Lemma initdb_loud_settles (ev : proc_event) (c : storage * promise unit) :
  match ev with StdoutData _ | StderrData _ => true | _ => false end = false ->
  snd c = Pending -> settled (snd (StorageInit.initdb_event ev c)) = true.
Proof.
  destruct c as [s p]; cbn [snd]; intros Hq ->.
  destruct ev; cbn in *; try discriminate; try reflexivity.
  destruct (is_zero code); reflexivity.
Qed.

(** X10. [initDbIfNeeded] waits for ever exactly when the marker is
    absent and the bootstrap child neither reports a spawn error nor
    closes: there is no timeout on the bootstrap command.  Any ['error']
    or ['close'] ends the wait. *)
Theorem initDbIfNeeded_hangs_iff (u : bool) (evs : list proc_event)
    (s : storage) :
  StorageInit.init_result (StorageInit.initDbIfNeeded u evs s) = NeverSettles
  <->
  StorageInit.marker_exists s = false /\ only_output evs = true.
Proof.
  unfold StorageInit.initDbIfNeeded. rewrite marker_after_cleanup.
  set (s1 := StorageInit.cleanLeftoverLockFile u (StorageInit.ensure_dataDir s)).
  destruct (StorageInit.marker_exists s) eqn:Hm.
  - cbn. split; [discriminate | intros [H _]; discriminate].
  - pose proof (pending_only_if_quiet _ _ StorageInit.initdb_event _
                  initdb_output_pending initdb_loud_settles evs
                  (s1, Pending) eq_refl) as Hback.
    pose proof (quiet_stream_pending _ _ StorageInit.initdb_event _
                  initdb_output_pending evs (s1, Pending)) as Hforth.
    destruct (deliver_until_settled StorageInit.initdb_event evs (s1, Pending))
      as [[s2 p] rest].
    cbn [fst snd] in Hback, Hforth. cbn [StorageInit.init_result].
    split.
    + intros H. split; [reflexivity|]. apply Hback.
      destruct p; [reflexivity | discriminate | discriminate].
    + intros [_ Hq]. rewrite (Hforth Hq eq_refl). reflexivity.
Qed.

(** Witness for X10: a fresh disk and a bootstrap command that prints
    and then stalls. *)
Lemma initDbIfNeeded_hangs_iff_witness :
  StorageInit.init_result
    (StorageInit.initDbIfNeeded true
       [StdoutData "creating directory"; StderrData "waiting"]
       {| dataDir := false; pidFile := false; initMarker := None |})
  = NeverSettles.
Proof.
  exact (proj2 (initDbIfNeeded_hangs_iff true
                  [StdoutData "creating directory"; StderrData "waiting"]
                  {| dataDir := false; pidFile := false; initMarker := None |})
               (conj eq_refl eq_refl)).
Defined.

(** ** Port allocator: more attempts *)

Lemma attempts_acc (isFree : Z -> bool) (sp : Z) (n : nat) :
  forall port probed,
    PortAllocator.attempts isFree sp n port probed
    = (fst (PortAllocator.attempts isFree sp n port []),
       probed ++ snd (PortAllocator.attempts isFree sp n port [])).
Proof.
  induction n as [|n IH]; intros port probed; cbn [PortAllocator.attempts].
  - cbn. now rewrite app_nil_r.
  - destruct (PortAllocator.valid_port port); [|reflexivity].
    destruct (isFree port); cbn [fst snd app]; [reflexivity|].
    rewrite (IH (port + 1) (probed ++ [port])), (IH (port + 1) [port]).
    cbn [fst snd]. now rewrite <- app_assoc.
Qed.

(** The start port only names the port-exhaustion error. *)
Lemma attempts_start (isFree : Z -> bool) (sp sp' : Z) (n : nat) :
  forall port probed,
    PortAllocator.attempts isFree sp n port probed
    = (match fst (PortAllocator.attempts isFree sp' n port probed) with
       | inl p => inl p
       | inr (NoFreePort _) => inr (NoFreePort sp)
       | inr e => inr e
       end,
       snd (PortAllocator.attempts isFree sp' n port probed)).
Proof.
  induction n as [|n IH]; intros port probed; cbn [PortAllocator.attempts].
  - reflexivity.
  - destruct (PortAllocator.valid_port port); [|reflexivity].
    destruct (isFree port); [reflexivity | apply IH].
Qed.

Lemma attempts_split (isFree : Z -> bool) (sp : Z) (n m : nat) :
  forall port,
    PortAllocator.attempts isFree sp (n + m) port []
    = match fst (PortAllocator.attempts isFree sp n port []) with
      | inr (NoFreePort _) =>
          (fst (PortAllocator.attempts isFree sp m (port + Z.of_nat n) []),
           snd (PortAllocator.attempts isFree sp n port [])
           ++ snd (PortAllocator.attempts isFree sp m (port + Z.of_nat n) []))
      | _ => PortAllocator.attempts isFree sp n port []
      end.
Proof.
  induction n as [|n IH]; intros port.
  - cbn [Nat.add PortAllocator.attempts fst snd app].
    rewrite Z.add_0_r. now destruct (PortAllocator.attempts isFree sp m port []).
  - change (S n + m)%nat with (S (n + m)). cbn [PortAllocator.attempts].
    destruct (PortAllocator.valid_port port); [|reflexivity].
    destruct (isFree port); cbn [fst snd app]; [reflexivity|].
    rewrite (attempts_acc isFree sp (n + m) (port + 1) [port]).
    rewrite (attempts_acc isFree sp n (port + 1) [port]).
    rewrite IH. cbn [fst snd].
    replace (port + Z.of_nat (S n)) with (port + 1 + Z.of_nat n) by lia.
    destruct (PortAllocator.attempts isFree sp n (port + 1) [])
      as [[found|[]] l]; cbn [fst snd]; reflexivity.
Qed.

(** X11. Raising [maxAttempts] never changes a port already found, nor a
    range error already met, nor the probes made up to there; and when
    the first [N] candidates are all valid and busy, [N + M] attempts
    continue exactly as [M] attempts started at [P + N] would: same port
    or same range error, a port-exhaustion error still naming [P], and
    the probes of the two ranges one after the other. *)
Theorem findFreePort_more_attempts (isFree : Z -> bool) (P N M : Z) :
  0 <= N -> 0 <= M ->
  match fst (PortAllocator.findFreePort isFree P N) with
  | inr (NoFreePort _) =>
      fst (PortAllocator.findFreePort isFree P (N + M))
      = match fst (PortAllocator.findFreePort isFree (P + N) M) with
        | inl p => inl p
        | inr (NoFreePort _) => inr (NoFreePort P)
        | inr e => inr e
        end /\
      snd (PortAllocator.findFreePort isFree P (N + M))
      = snd (PortAllocator.findFreePort isFree P N)
        ++ snd (PortAllocator.findFreePort isFree (P + N) M)
  | _ =>
      PortAllocator.findFreePort isFree P (N + M)
      = PortAllocator.findFreePort isFree P N
  end.
Proof.
  intros HN HM. unfold PortAllocator.findFreePort.
  rewrite (Z2Nat.inj_add N M HN HM), attempts_split.
  rewrite (Z2Nat.id N HN).
  destruct (fst (PortAllocator.attempts isFree P (Z.to_nat N) P []))
    as [found|[]]; try reflexivity.
  cbn [fst snd].
  rewrite (attempts_start isFree P (P + N) (Z.to_nat M) (P + N) []).
  cbn [fst snd]. split; reflexivity.
Qed.

(** Witness for X11: port 65535 taken; one attempt exhausts the range,
    two attempts end with the range error of port 65536, as one attempt
    started at 65536 does. *)
Lemma findFreePort_more_attempts_witness :
  fst (PortAllocator.findFreePort (fun _ => false) 65535 (1 + 1))
  = inr (BadPort 65536).
Proof.
  exact (proj1 (findFreePort_more_attempts (fun _ => false) 65535 1 1
                  ltac:(lia) ltac:(lia))).
Defined.

(** ** Startup pipeline: order, ports, errors *)

Lemma child_effects_refl (st : env) : child_effects st st.
Proof.
  unfold child_effects. repeat split. exists []. split.
  - now rewrite app_nil_r.
  - constructor.
Qed.

Lemma child_effects_trans (a b c : env) :
  child_effects a b -> child_effects b c -> child_effects a c.
Proof.
  unfold child_effects.
  intros (F1 & P1 & L1 & Q1 & W1 & K1 & R1 & d1 & D1 & C1)
         (F2 & P2 & L2 & Q2 & W2 & K2 & R2 & d2 & D2 & C2).
  repeat split; try congruence.
  exists (d1 ++ d2). split.
  - rewrite D2, D1. now rewrite app_assoc.
  - apply Forall_app. auto.
Qed.

Lemma on_close_effects (d : dialog) (code : exit_code) (st : env) :
  is_crash_dialog d -> child_effects st (Supervisor.on_close d code st).
Proof.
  intros Hd. unfold Supervisor.on_close.
  destruct (_ && _)%bool; [|apply child_effects_refl].
  unfold child_effects; cbn. repeat split.
  exists [d]. split.
  - destruct d; reflexivity.
  - constructor; [exact Hd | constructor].
Qed.

Lemma pg_event_effects (ev : proc_event) (c : env * promise unit) :
  child_effects (fst c) (fst (Supervisor.pg_event ev c)).
Proof.
  destruct c as [st p]. destruct ev; cbn [Supervisor.pg_event fst].
  - apply child_effects_refl.
  - apply child_effects_refl.
  - apply child_effects_refl.
  - apply on_close_effects. now left.
Qed.

Lemma lm_event_effects (ev : proc_event)
    (c : (env * option string) * promise (option string)) :
  child_effects (fst (fst c)) (fst (fst (Supervisor.lm_event ev c))).
Proof.
  destruct c as [[st v] p]. destruct ev; cbn [Supervisor.lm_event fst].
  - apply child_effects_refl.
  - destruct (Scan.lm_match _); apply child_effects_refl.
  - apply child_effects_refl.
  - apply on_close_effects. now right.
Qed.

Section Effects.

Variables S A : Type.
Variable handler : proc_event -> S * promise A -> S * promise A.
Variable view : S -> env.

Hypothesis step_effects :
  forall ev c, child_effects (view (fst c)) (view (fst (handler ev c))).

Lemma deliver_effects (evs : list proc_event) :
  forall c,
    child_effects (view (fst c))
      (view (fst (fst (deliver_until_settled handler evs c)))).
Proof.
  induction evs as [|ev evs IH]; intros c; cbn [deliver_until_settled].
  - apply child_effects_refl.
  - destruct (settled (snd (handler ev c))); cbn [fst].
    + apply step_effects.
    + eapply child_effects_trans; [apply step_effects | apply IH].
Qed.

End Effects.

Lemma startPostgres_effects (port : Z) (evs : list proc_event) (st : env) :
  child_effects (set_pgProcess (Some (db_handle port)) st)
    (snd (fst (Supervisor.startPostgres port evs st))).
Proof.
  unfold Supervisor.startPostgres.
  pose proof (deliver_effects _ _ Supervisor.pg_event (fun s => s)
                pg_event_effects evs
                (Supervisor.startPostgres_spawn port st)) as H.
  destruct (deliver_until_settled _ _ _) as [[st' p] rest].
  refine (child_effects_trans _ _ _ _ H).
  unfold child_effects; cbn. repeat split. exists []. split.
  - now rewrite app_nil_r.
  - constructor.
Qed.

Lemma startListmonk_effects (port : Z) (evs : list proc_event) (st : env) :
  child_effects (set_listmonkProcess (Some (app_handle port)) st)
    (snd (fst (Supervisor.startListmonk port evs st))).
Proof.
  unfold Supervisor.startListmonk.
  pose proof (deliver_effects _ _ Supervisor.lm_event fst
                lm_event_effects evs
                (Supervisor.startListmonk_spawn port st)) as H.
  destruct (deliver_until_settled _ _ _) as [[[st' v] p] rest].
  refine (child_effects_trans _ _ _ _ H).
  unfold child_effects; cbn. repeat split. exists []. split.
  - now rewrite app_nil_r.
  - constructor.
Qed.

(** [startPostgres] only returns after a readiness line. *)
Lemma pg_fulfilled_by_marker (evs : list proc_event) :
  forall (c : env * promise unit) (v : unit),
    snd c = Pending ->
    snd (fst (deliver_until_settled Supervisor.pg_event evs c)) = Fulfilled v ->
    exists ev, In ev evs /\ pg_ready_line ev = true.
Proof.
  induction evs as [|ev evs IH]; intros [st p] v Hc; cbn [snd] in Hc;
    subst p; cbn [deliver_until_settled].
  - cbn. discriminate.
  - destruct ev as [err|txt|txt|code];
      cbn [Supervisor.pg_event reject]; unfold Supervisor.checkLine.
    + cbn. discriminate.
    + destruct (Scan.includes txt Scan.pg_ready_marker) eqn:Hm.
      * intros _. exists (StdoutData txt). split; [now left | exact Hm].
      * cbn [snd settled]. intros H.
        destruct (IH (_, Pending) v eq_refl H) as (ev & Hin & Hr).
        exists ev. split; [now right | exact Hr].
    + destruct (Scan.includes txt Scan.pg_ready_marker) eqn:Hm.
      * intros _. exists (StderrData txt). split; [now left | exact Hm].
      * cbn [snd settled]. intros H.
        destruct (IH (_, Pending) v eq_refl H) as (ev & Hin & Hr).
        exists ev. split; [now right | exact Hr].
    + cbn [snd settled]. intros H.
      destruct (IH (_, Pending) v eq_refl H) as (ev & Hin & Hr).
      exists ev. split; [now right | exact Hr].
Qed.

(** A run of the initializer that returns leaves an initialized data
    directory. *)
Lemma init_returned_initialized (u : bool) (evs : list proc_event)
    (s : storage) :
  StorageInit.init_result (StorageInit.initDbIfNeeded u evs s) = Returned tt ->
  StorageInit.marker_exists
    (StorageInit.init_fs (StorageInit.initDbIfNeeded u evs s)) = true /\
  dataDir (StorageInit.init_fs (StorageInit.initDbIfNeeded u evs s)) = true.
Proof.
  unfold StorageInit.initDbIfNeeded.
  set (s1 := StorageInit.cleanLeftoverLockFile u (StorageInit.ensure_dataDir s)).
  assert (Hdir : dataDir s1 = true).
  { subst s1. unfold StorageInit.cleanLeftoverLockFile,
      StorageInit.ensure_dataDir.
    destruct s as [[|] [|] m]; destruct u; reflexivity. }
  destruct (StorageInit.marker_exists s1) eqn:Hs1.
  - cbn. auto.
  - pose proof (initdb_delivery evs s1) as Hd.
    destruct (deliver_until_settled StorageInit.initdb_event evs (s1, Pending))
      as [[s2 p] rest].
    cbn [StorageInit.init_fs StorageInit.init_result].
    destruct p; cbn [await]; try discriminate.
    intros _. subst s2. cbn. auto.
Qed.

(** The handler of [app.whenReady()], step by step: where it stops and
    in which state, in terms of the outcome of each awaited call. *)
Lemma whenReady_shape (w : Pipeline.world) (st : env) :
  let ir := StorageInit.initDbIfNeeded (Pipeline.unlink_ok w)
              (Pipeline.initdb_events w) (fs st) in
  let stA := set_fs (StorageInit.init_fs ir) st in
  let found := fst (PortAllocator.findFreePort (Pipeline.port_free w)
                      PortAllocator.default_startPort
                      PortAllocator.default_maxAttempts) in
  let v := fst (Pipeline.whenReady w st) in
  let st' := snd (Pipeline.whenReady w st) in
  (StorageInit.init_result ir = NeverSettles /\
   v = Pipeline.Hung Pipeline.StepA /\ st' = stA)
  \/
  (exists e, StorageInit.init_result ir = Threw e /\
             v = Pipeline.StartupError Pipeline.StepA e /\
             st' = Pipeline.on_startup_error e stA)
  \/
  (StorageInit.init_result ir = Returned tt /\
   ((exists e, found = inr e /\
               v = Pipeline.StartupError Pipeline.StepB e /\
               st' = Pipeline.on_startup_error e stA)
    \/
    (exists pgPort,
       found = inl pgPort /\
       let rC := fst (fst (Supervisor.startPostgres pgPort
                             (Pipeline.postgres_events w) stA)) in
       let stC := snd (fst (Supervisor.startPostgres pgPort
                              (Pipeline.postgres_events w) stA)) in
       child_effects (set_pgProcess (Some (db_handle pgPort)) stA) stC /\
       ((rC = NeverSettles /\ v = Pipeline.Hung Pipeline.StepC /\ st' = stC)
        \/
        (exists e, rC = Threw e /\
                   v = Pipeline.StartupError Pipeline.StepC e /\
                   st' = Pipeline.on_startup_error e stC)
        \/
        (rC = Returned tt /\
         ((exists cause,
              Pipeline.install_err w = Some cause /\
              v = Pipeline.StartupError Pipeline.StepD (InstallErr cause) /\
              st' = Pipeline.on_startup_error (InstallErr cause) stC)
          \/
          (Pipeline.install_err w = None /\
           let rE := fst (fst (Supervisor.startListmonk pgPort
                                 (Pipeline.listmonk_events w) stC)) in
           let stE := snd (fst (Supervisor.startListmonk pgPort
                                  (Pipeline.listmonk_events w) stC)) in
           child_effects
             (set_listmonkProcess (Some (app_handle pgPort)) stC) stE /\
           ((rE = NeverSettles /\
             v = Pipeline.Hung Pipeline.StepE /\ st' = stE)
            \/
            (exists e, rE = Threw e /\
                       v = Pipeline.StartupError Pipeline.StepE e /\
                       st' = Pipeline.on_startup_error e stE)
            \/
            (exists port, rE = Returned port /\
                          v = Pipeline.WindowShown /\
                          st' = Pipeline.createWindow
                                  (Some (or_default port Pipeline.default_port))
                                  stE))))))))).
Proof.
  cbn zeta. unfold Pipeline.whenReady.
  destruct (StorageInit.init_result _) as [[]|e|]; cbn [fst snd];
    [ | right; left; exists e; auto | left; auto ].
  right; right. split; [reflexivity|].
  destruct (fst (PortAllocator.findFreePort _ _ _)) as [pgPort|e];
    cbn [fst snd]; [ | left; exists e; auto ].
  right. exists pgPort. split; [reflexivity|].
  split; [apply startPostgres_effects|].
  pose proof (startListmonk_effects pgPort (Pipeline.listmonk_events w)
                (snd (fst (Supervisor.startPostgres pgPort
                             (Pipeline.postgres_events w)
                             (set_fs (StorageInit.init_fs
                                (StorageInit.initDbIfNeeded
                                   (Pipeline.unlink_ok w)
                                   (Pipeline.initdb_events w) (fs st))) st)))))
    as HE.
  destruct (Supervisor.startPostgres _ _ _) as [[rC stC] restC].
  cbn [fst snd] in HE |- *.
  destruct rC as [[]|e|]; cbn [fst snd];
    [ | right; left; exists e; auto | left; auto ].
  right; right. split; [reflexivity|].
  unfold Pipeline.installListmonk.
  destruct (Pipeline.install_err w) as [cause|]; cbn [fst snd];
    [ left; exists cause; auto | ].
  right. split; [reflexivity|]. split; [exact HE|].
  destruct (Supervisor.startListmonk _ _ _) as [[rE stE] restE].
  cbn [fst snd].
  destruct rE as [port|e|]; cbn [fst snd];
    [ right; right; exists port; auto | right; left; exists e; auto
    | left; auto ].
Qed.

Ltac open_effects H :=
  let F := fresh "Hfs" in
  let P := fresh "Hpg" in
  let L := fresh "Hlm" in
  let Q := fresh "Hquit" in
  let W := fresh "Hwin" in
  let K := fresh "Hkills" in
  let R := fresh "Hreq" in
  let ds := fresh "ds" in
  let D := fresh "Hdialogs" in
  let C := fresh "Hcrash" in
  destruct H as (F & P & L & Q & W & K & R & ds & D & C);
  cbn in F, P, L, Q, W, K, R, D.

(** X12. In a launch, the steps run strictly in order.  The database is
    spawned only after the storage initializer returned, on a data
    directory that exists and carries the marker.  The application is
    spawned only after the database printed its readiness line and the
    install command succeeded, and it is given the port the database was
    started on. *)
Theorem pipeline_order (w : Pipeline.world) (disk : storage) :
  let st' := snd (Pipeline.whenReady w (boot disk)) in
  (pgProcess st' <> None ->
   StorageInit.init_result
     (StorageInit.initDbIfNeeded (Pipeline.unlink_ok w)
        (Pipeline.initdb_events w) disk) = Returned tt /\
   StorageInit.marker_exists (fs st') = true /\
   dataDir (fs st') = true)
  /\
  (forall a, listmonkProcess st' = Some a ->
     a = app_handle (h_pgPort a) /\
     pgProcess st' = Some (db_handle (h_pgPort a)) /\
     Pipeline.install_err w = None /\
     exists ev, In ev (Pipeline.postgres_events w) /\ pg_ready_line ev = true).
Proof.
  cbn zeta.
  pose proof (init_returned_initialized (Pipeline.unlink_ok w)
                (Pipeline.initdb_events w) disk) as Hinit.
  destruct (whenReady_shape w (boot disk))
    as [(Hir & _ & ->) | [(e & Hir & _ & ->) | (Hir & Hrest)]];
    cbn [fs boot] in *.
  - cbn. split; [congruence | discriminate].
  - cbn. split; [congruence | discriminate].
  - destruct (Hinit Hir) as [Hmark Hdir].
    destruct Hrest as [(e & _ & _ & ->) | (pgPort & _ & HC & Hrest)].
    + cbn. split; [congruence | discriminate].
    + cbn zeta in Hrest.
      pose proof (startPostgres_result pgPort (Pipeline.postgres_events w)
                    (set_fs (StorageInit.init_fs
                       (StorageInit.initDbIfNeeded (Pipeline.unlink_ok w)
                          (Pipeline.initdb_events w) disk)) (boot disk)))
        as HrC.
      open_effects HC.
      destruct Hrest as [(_ & _ & ->) | [(e & _ & _ & ->) | (HretC & Hrest)]].
      * cbn. rewrite Hfs, Hlm. split; [auto | discriminate].
      * cbn. rewrite Hfs, Hlm. split; [auto | discriminate].
      * assert (Hready : exists ev, In ev (Pipeline.postgres_events w) /\
                                    pg_ready_line ev = true).
        { rewrite HrC in HretC.
          destruct (snd (fst (deliver_until_settled Supervisor.pg_event
                                (Pipeline.postgres_events w) _)))
            as [|v|e] eqn:Hp; try discriminate.
          eapply (pg_fulfilled_by_marker _ _ v); [|exact Hp]. reflexivity. }
        destruct Hrest as [(cause & _ & _ & ->) | (Hinst & HE & Hrest)].
        -- cbn. rewrite Hfs, Hlm. split; [auto | discriminate].
        -- cbn zeta in HE, Hrest. open_effects HE.
           match type of Hfs0 with fs ?x = _ => set (stE := x) in * end.
           assert (Hgoal :
             forall stF,
               fs stF = fs stE -> pgProcess stF = pgProcess stE ->
               listmonkProcess stF = listmonkProcess stE ->
               (pgProcess stF <> None ->
                Returned tt = Returned tt /\
                StorageInit.marker_exists (fs stF) = true /\
                dataDir (fs stF) = true) /\
               (forall a, listmonkProcess stF = Some a ->
                  a = app_handle (h_pgPort a) /\
                  pgProcess stF = Some (db_handle (h_pgPort a)) /\
                  Pipeline.install_err w = None /\
                  exists ev, In ev (Pipeline.postgres_events w) /\
                             pg_ready_line ev = true)).
           { intros stF E1 E2 E3.
             rewrite E1, E2, E3, Hfs0, Hpg0, Hlm0, Hfs, Hpg.
             split; [auto|].
             intros a [= <-]. cbn. auto. }
           rewrite Hir.
           destruct Hrest as [(_ & _ & ->) | [(e & _ & _ & ->)
                                              | (port & _ & _ & ->)]];
             apply Hgoal; reflexivity.
Qed.

(** The allocator on the arguments the pipeline gives it. *)
Lemma default_port_search (isFree : Z -> bool) :
  match fst (PortAllocator.findFreePort isFree
               PortAllocator.default_startPort
               PortAllocator.default_maxAttempts) with
  | inl p =>
      54321 <= p < 54341 /\ isFree p = true /\
      (forall q, 54321 <= q < p -> isFree q = false)
  | inr e =>
      e = NoFreePort 54321 /\
      (forall q, 54321 <= q < 54341 -> isFree q = false)
  end.
Proof.
  unfold PortAllocator.findFreePort, PortAllocator.default_startPort,
    PortAllocator.default_maxAttempts.
  change (Z.to_nat 20) with 20%nat.
  destruct (attempts_spec isFree 54321 20 54321 [])
    as [(k & Hk & Hrun & Hv & Hhit & Hbelow)
       | [(k & Hk & Hrun & Hv & Hbelow) | (Hrun & Hall)]];
    rewrite Hrun; cbn [fst].
  - repeat split; try lia; auto. intros q Hq. apply Hbelow. lia.
  - apply Bool.not_true_iff_false in Hv. exfalso. apply Hv.
    apply valid_port_range. lia.
  - split; [reflexivity|]. intros q Hq. apply Hall. lia.
Qed.

(** X13. The database is only ever started on the lowest port of
    54321 .. 54340 whose probe succeeded.  When all twenty probes fail
    after a successful storage initialization, the launch ends at step B
    with the port-exhaustion error and neither child is spawned. *)
Theorem database_port_in_range (w : Pipeline.world) (disk : storage) :
  let v := fst (Pipeline.whenReady w (boot disk)) in
  let st' := snd (Pipeline.whenReady w (boot disk)) in
  (forall h, pgProcess st' = Some h ->
     h = db_handle (h_pgPort h) /\
     54321 <= h_pgPort h < 54341 /\
     Pipeline.port_free w (h_pgPort h) = true /\
     (forall q, 54321 <= q < h_pgPort h -> Pipeline.port_free w q = false))
  /\
  ((forall q, 54321 <= q < 54341 -> Pipeline.port_free w q = false) ->
   StorageInit.init_result
     (StorageInit.initDbIfNeeded (Pipeline.unlink_ok w)
        (Pipeline.initdb_events w) disk) = Returned tt ->
   v = Pipeline.StartupError Pipeline.StepB (NoFreePort 54321) /\
   pgProcess st' = None /\ listmonkProcess st' = None).
Proof.
  cbn zeta.
  pose proof (default_port_search (Pipeline.port_free w)) as Hsearch.
  destruct (whenReady_shape w (boot disk))
    as [(Hir & -> & ->) | [(e & Hir & -> & ->) | (Hir & Hrest)]];
    cbn [fs boot] in *.
  - cbn. split; [discriminate | congruence].
  - cbn. split; [discriminate | congruence].
  - destruct Hrest as [(e & Hf & -> & ->) | (pgPort & Hf & HC & Hrest)];
      rewrite Hf in Hsearch.
    + destruct Hsearch as [-> _]. cbn. split; [discriminate | auto].
    + destruct Hsearch as (Hrange & Hfree & Hbelow).
      cbn zeta in Hrest. open_effects HC.
      assert (Hgoal : forall stF,
                pgProcess stF = Some (db_handle pgPort) ->
                forall h, pgProcess stF = Some h ->
                  h = db_handle (h_pgPort h) /\
                  54321 <= h_pgPort h < 54341 /\
                  Pipeline.port_free w (h_pgPort h) = true /\
                  (forall q, 54321 <= q < h_pgPort h ->
                             Pipeline.port_free w q = false)).
      { intros stF E h Hh. rewrite E in Hh. injection Hh as <-. cbn. auto. }
      assert (Hbusy : (forall q, 54321 <= q < 54341 ->
                                 Pipeline.port_free w q = false) -> False).
      { intros Hall. rewrite (Hall pgPort Hrange) in Hfree. discriminate. }
      destruct Hrest as [(_ & _ & ->) | [(e & _ & _ & ->) | (_ & Hrest)]].
      * split; [apply Hgoal; exact Hpg | intros H; destruct (Hbusy H)].
      * split; [apply Hgoal; exact Hpg | intros H; destruct (Hbusy H)].
      * destruct Hrest as [(cause & _ & _ & ->) | (_ & HE & Hrest)].
        -- split; [apply Hgoal; exact Hpg | intros H; destruct (Hbusy H)].
        -- cbn zeta in HE, Hrest. open_effects HE.
           destruct Hrest as [(_ & _ & ->) | [(e & _ & _ & ->)
                                              | (port & _ & _ & ->)]];
             (split; [apply Hgoal; cbn; congruence
                     | intros H; destruct (Hbusy H)]).
Qed.

(** Witness for X13: all twenty ports taken. *)
Lemma database_port_in_range_witness :
  fst (Pipeline.whenReady
         {| Pipeline.unlink_ok := true;
            Pipeline.initdb_events := [OnClose (Some 0)];
            Pipeline.port_free := fun _ => false;
            Pipeline.postgres_events := [];
            Pipeline.install_err := None;
            Pipeline.listmonk_events := [] |}
         (boot {| dataDir := false; pidFile := false; initMarker := None |}))
  = Pipeline.StartupError Pipeline.StepB (NoFreePort 54321).
Proof.
  exact (proj1 (proj2 (database_port_in_range
           {| Pipeline.unlink_ok := true;
              Pipeline.initdb_events := [OnClose (Some 0)];
              Pipeline.port_free := fun _ => false;
              Pipeline.postgres_events := [];
              Pipeline.install_err := None;
              Pipeline.listmonk_events := [] |}
           {| dataDir := false; pidFile := false; initMarker := None |})
         (fun _ _ => eq_refl) eq_refl)).
Defined.

(** X14. How a launch reports.  Exactly when the handler ends in its
    [catch], one ['Startup Error'] dialog carrying the thrown error is
    shown, after any crash dialogs the children caused, and [app.quit()]
    is called.  Otherwise only crash dialogs can have been added and
    [app.quit()] is not called.  In no case does the handler call [kill]
    or write [isQuitting], and unless it reaches [createWindow] the
    window is untouched. *)
Theorem startup_error_surfaced (w : Pipeline.world) (st : env) :
  let v := fst (Pipeline.whenReady w st) in
  let st' := snd (Pipeline.whenReady w st) in
  exists ds,
    Forall is_crash_dialog ds /\
    match v with
    | Pipeline.StartupError _ e =>
        dialogs st' = dialogs st ++ ds ++ [startup_dialog e] /\
        quitRequested st' = true
    | _ =>
        dialogs st' = dialogs st ++ ds /\
        quitRequested st' = quitRequested st
    end /\
    kills st' = kills st /\
    isQuitting st' = isQuitting st /\
    (v <> Pipeline.WindowShown -> mainWindow st' = mainWindow st).
Proof.
  cbn zeta.
  destruct (whenReady_shape w st)
    as [(_ & -> & ->) | [(e & _ & -> & ->) | (_ & Hrest)]].
  - exists []. cbn. rewrite app_nil_r. repeat split; auto.
  - exists []. cbn. repeat split; auto.
  - destruct Hrest as [(e & _ & -> & ->) | (pgPort & _ & HC & Hrest)].
    + exists []. cbn. repeat split; auto.
    + cbn zeta in Hrest. open_effects HC.
      destruct Hrest as [(_ & -> & ->) | [(e & _ & -> & ->) | (_ & Hrest)]].
      * exists ds. cbn. repeat split; auto.
      * exists ds. cbn. rewrite Hdialogs, <- app_assoc.
        repeat split; auto.
      * destruct Hrest as [(cause & _ & -> & ->) | (_ & HE & Hrest)].
        -- exists ds. cbn. rewrite Hdialogs, <- app_assoc.
           repeat split; auto.
        -- cbn zeta in HE, Hrest. open_effects HE.
           assert (Hall : Forall is_crash_dialog (ds ++ ds0))
             by (apply Forall_app; auto).
           destruct Hrest as [(_ & -> & ->) | [(e & _ & -> & ->)
                                               | (port & _ & -> & ->)]];
             exists (ds ++ ds0); cbn;
             rewrite ?Hdialogs0, ?Hdialogs, <- ?app_assoc;
             repeat split; auto; try congruence.
Qed.

(** Witness for X15: a launch that reaches the window. *)
Lemma window_address_is_captured_witness :
  exists line captured,
    In (StdoutData line)
       [StderrData "starting";
        StdoutData "Web server listening on http://127.0.0.1:8042"] /\
    Scan.lm_match line = Some captured /\
    mainWindow
      (snd (Pipeline.whenReady
              {| Pipeline.unlink_ok := true;
                 Pipeline.initdb_events := [OnClose (Some 0)];
                 Pipeline.port_free := fun _ => true;
                 Pipeline.postgres_events :=
                   [StderrData
                      "LOG:  database system is ready to accept connections"];
                 Pipeline.install_err := None;
                 Pipeline.listmonk_events :=
                   [StderrData "starting";
                    StdoutData
                      "Web server listening on http://127.0.0.1:8042"] |}
              (boot {| dataDir := false; pidFile := false;
                       initMarker := None |})))
    = Some (String.append "http://127.0.0.1:" captured).
Proof.
  exact (window_address_is_captured
           {| Pipeline.unlink_ok := true;
              Pipeline.initdb_events := [OnClose (Some 0)];
              Pipeline.port_free := fun _ => true;
              Pipeline.postgres_events :=
                [StderrData
                   "LOG:  database system is ready to accept connections"];
              Pipeline.install_err := None;
              Pipeline.listmonk_events :=
                [StderrData "starting";
                 StdoutData
                   "Web server listening on http://127.0.0.1:8042"] |}
           (boot {| dataDir := false; pidFile := false; initMarker := None |})
           eq_refl).
Defined.

(** ** Shutdown after a launch *)

Lemma kill_if_spawned_frame (throws : handle -> kill_arg -> option string)
    (proc : option handle) (st : env) :
  let st' := fst (Shutdown.kill_if_spawned throws proc st) in
  fs st' = fs st /\ pgProcess st' = pgProcess st /\
  listmonkProcess st' = listmonkProcess st /\
  isQuitting st' = isQuitting st /\ mainWindow st' = mainWindow st /\
  dialogs st' = dialogs st /\ logs st' = logs st /\
  quitRequested st' = quitRequested st.
Proof.
  destruct proc as [h|]; cbn [Shutdown.kill_if_spawned].
  - unfold Shutdown.try_kill.
    destruct (throws h WithSIGTERM); [destruct (throws h NoArgument)|];
      cbn; repeat split.
  - cbn. repeat split.
Qed.

(** The calls one [will-quit] adds, and what it leaves alone. *)
Lemma will_quit_effects (throws : handle -> kill_arg -> option string)
    (st : env) :
  let st' := fst (Shutdown.will_quit throws st) in
  kills st' = kills st
              ++ quit_calls throws (listmonkProcess st) (pgProcess st) /\
  fs st' = fs st /\ pgProcess st' = pgProcess st /\
  listmonkProcess st' = listmonkProcess st /\
  isQuitting st' = isQuitting st /\ mainWindow st' = mainWindow st /\
  dialogs st' = dialogs st /\ logs st' = logs st /\
  quitRequested st' = quitRequested st.
Proof.
  cbn zeta. unfold Shutdown.will_quit, quit_calls.
  destruct (kill_if_spawned_spec throws (listmonkProcess st) st)
    as (Hk1 & Hr1 & _ & _).
  pose proof (kill_if_spawned_frame throws (listmonkProcess st) st) as F1.
  destruct (Shutdown.kill_if_spawned throws (listmonkProcess st) st)
    as [st1 r1].
  cbn [fst snd] in Hk1, Hr1, F1.
  destruct F1 as (A1 & A2 & A3 & A4 & A5 & A6 & A7 & A8).
  rewrite <- Hr1. destruct r1 as [e|]; cbn [fst].
  - rewrite app_nil_r. repeat split; auto.
  - destruct (kill_if_spawned_spec throws (pgProcess st1) st1)
      as (Hk2 & _ & _ & _).
    pose proof (kill_if_spawned_frame throws (pgProcess st1) st1) as F2.
    cbn zeta in F2.
    destruct F2 as (B1 & B2 & B3 & B4 & B5 & B6 & B7 & B8).
    rewrite Hk2, Hk1, A2, <- app_assoc.
    repeat split; congruence.
Qed.

(** X16. Quitting after a launch that reached the window: both children
    were spawned on the same database port, and [before-quit] followed by
    [will-quit] sets [isQuitting] and calls [kill] on the application
    first, then on the database; when no graceful call throws these are
    exactly two calls of [kill('SIGTERM')]. *)
Theorem shutdown_after_launch (w : Pipeline.world) (disk : storage)
    (throws : handle -> kill_arg -> option string) :
  fst (Pipeline.whenReady w (boot disk)) = Pipeline.WindowShown ->
  exists pgPort,
    let st' := snd (Pipeline.whenReady w (boot disk)) in
    let quit := fst (Shutdown.shutdown throws st') in
    listmonkProcess st' = Some (app_handle pgPort) /\
    pgProcess st' = Some (db_handle pgPort) /\
    isQuitting quit = true /\
    kills quit = quit_calls throws (Some (app_handle pgPort))
                   (Some (db_handle pgPort)) /\
    ((forall h, throws h WithSIGTERM = None) ->
     kills quit = [(app_handle pgPort, WithSIGTERM);
                   (db_handle pgPort, WithSIGTERM)]).
Proof.
  intros Hshown.
  destruct (whenReady_shape w (boot disk))
    as [(_ & Hv & _) | [(e & _ & Hv & _) | (_ & Hrest)]];
    try (rewrite Hv in Hshown; discriminate).
  destruct Hrest as [(e & _ & Hv & _) | (pgPort & _ & HC & Hrest)];
    try (rewrite Hv in Hshown; discriminate).
  cbn zeta in Hrest. open_effects HC.
  destruct Hrest as [(_ & Hv & _) | [(e & _ & Hv & _) | (_ & Hrest)]];
    try (rewrite Hv in Hshown; discriminate).
  destruct Hrest as [(cause & _ & Hv & _) | (_ & HE & Hrest)];
    try (rewrite Hv in Hshown; discriminate).
  cbn zeta in HE, Hrest. open_effects HE.
  destruct Hrest as [(_ & Hv & _) | [(e & _ & Hv & _) | (port & _ & _ & Hst)]];
    try (rewrite Hv in Hshown; discriminate).
  exists pgPort. cbn zeta.
  assert (Happ : listmonkProcess (snd (Pipeline.whenReady w (boot disk)))
                 = Some (app_handle pgPort))
    by (rewrite Hst; cbn; congruence).
  assert (Hdb : pgProcess (snd (Pipeline.whenReady w (boot disk)))
                = Some (db_handle pgPort))
    by (rewrite Hst; cbn; congruence).
  assert (Hnone : kills (snd (Pipeline.whenReady w (boot disk))) = [])
    by (rewrite Hst; cbn; congruence).
  revert Happ Hdb Hnone.
  generalize (snd (Pipeline.whenReady w (boot disk))).
  intros stF Happ Hdb Hnone.
  unfold Shutdown.shutdown.
  destruct (will_quit_effects throws (Shutdown.before_quit stF))
    as (Hcalls & _ & _ & _ & Hflag & _).
  cbn [Shutdown.before_quit set_isQuitting kills listmonkProcess pgProcess
       isQuitting] in Hcalls, Hflag.
  rewrite Happ, Hdb, Hnone in Hcalls. cbn [app] in Hcalls.
  repeat split; auto.
  intros Hquiet. rewrite Hcalls. unfold quit_calls. cbn.
  rewrite !Hquiet. reflexivity.
Qed.

(** Witness for X16: the launch of the fresh-disk scenario, then quit. *)
Lemma shutdown_after_launch_witness :
  exists pgPort,
    kills (fst (Shutdown.shutdown Shutdown.quiet
             (snd (Pipeline.whenReady
                {| Pipeline.unlink_ok := true;
                   Pipeline.initdb_events := [OnClose (Some 0)];
                   Pipeline.port_free := fun p => negb (p =? 54321);
                   Pipeline.postgres_events :=
                     [StderrData
                        "LOG:  database system is ready to accept connections"];
                   Pipeline.install_err := None;
                   Pipeline.listmonk_events :=
                     [StdoutData
                        "Web server listening on http://127.0.0.1:8042"] |}
                (boot {| dataDir := false; pidFile := false;
                         initMarker := None |})))))
    = [(app_handle pgPort, WithSIGTERM); (db_handle pgPort, WithSIGTERM)].
Proof.
  destruct (shutdown_after_launch
              {| Pipeline.unlink_ok := true;
                 Pipeline.initdb_events := [OnClose (Some 0)];
                 Pipeline.port_free := fun p => negb (p =? 54321);
                 Pipeline.postgres_events :=
                   [StderrData
                      "LOG:  database system is ready to accept connections"];
                 Pipeline.install_err := None;
                 Pipeline.listmonk_events :=
                   [StdoutData
                      "Web server listening on http://127.0.0.1:8042"] |}
              {| dataDir := false; pidFile := false; initMarker := None |}
              Shutdown.quiet eq_refl)
    as (pgPort & _ & _ & _ & _ & Hquiet).
  exists pgPort. apply Hquiet. intros h. reflexivity.
Defined.

(** X17. [will-quit] changes nothing but the record of [kill] calls: in
    particular it does not clear [pgProcess] or [listmonkProcess], shows
    no dialog and does not touch the disk.  So a second [will-quit]
    signals the same handles again, in the same order. *)
Theorem will_quit_keeps_handles
    (throws : handle -> kill_arg -> option string) (st : env) :
  let once := fst (Shutdown.will_quit throws st) in
  let twice := fst (Shutdown.will_quit throws once) in
  pgProcess once = pgProcess st /\
  listmonkProcess once = listmonkProcess st /\
  fs once = fs st /\ isQuitting once = isQuitting st /\
  mainWindow once = mainWindow st /\ dialogs once = dialogs st /\
  logs once = logs st /\ quitRequested once = quitRequested st /\
  kills twice
  = kills st
    ++ quit_calls throws (listmonkProcess st) (pgProcess st)
    ++ quit_calls throws (listmonkProcess st) (pgProcess st).
Proof.
  cbn zeta.
  destruct (will_quit_effects throws st)
    as (K1 & F1 & P1 & L1 & Q1 & W1 & D1 & G1 & R1).
  destruct (will_quit_effects throws (fst (Shutdown.will_quit throws st)))
    as (K2 & _).
  rewrite K2, K1, P1, L1, <- app_assoc. repeat split; auto.
Qed.

(** ** Scenarios for the pipeline properties *)

(** Witness for X12: the install command fails; the database was
    spawned on initialized storage, the application never. *)
Lemma pipeline_order_witness :
  StorageInit.marker_exists
    (fs (snd (Pipeline.whenReady
                {| Pipeline.unlink_ok := true;
                   Pipeline.initdb_events := [OnClose (Some 0)];
                   Pipeline.port_free := fun _ => true;
                   Pipeline.postgres_events :=
                     [StderrData
                        "LOG:  database system is ready to accept connections"];
                   Pipeline.install_err := Some "exit code 1";
                   Pipeline.listmonk_events := [] |}
                (boot {| dataDir := false; pidFile := false;
                         initMarker := None |})))) = true
  /\
  listmonkProcess
    (snd (Pipeline.whenReady
            {| Pipeline.unlink_ok := true;
               Pipeline.initdb_events := [OnClose (Some 0)];
               Pipeline.port_free := fun _ => true;
               Pipeline.postgres_events :=
                 [StderrData
                    "LOG:  database system is ready to accept connections"];
               Pipeline.install_err := Some "exit code 1";
               Pipeline.listmonk_events := [] |}
            (boot {| dataDir := false; pidFile := false;
                     initMarker := None |}))) = None.
Proof.
  split.
  - refine (proj1 (proj2 (proj1 (pipeline_order
      {| Pipeline.unlink_ok := true;
         Pipeline.initdb_events := [OnClose (Some 0)];
         Pipeline.port_free := fun _ => true;
         Pipeline.postgres_events :=
           [StderrData
              "LOG:  database system is ready to accept connections"];
         Pipeline.install_err := Some "exit code 1";
         Pipeline.listmonk_events := [] |}
      {| dataDir := false; pidFile := false; initMarker := None |}) _))).
    cbn. discriminate.
  - reflexivity.
Defined.

(** Witness for X14: the same launch; its only dialog is the startup
    error of the install command. *)
Lemma startup_error_surfaced_witness :
  exists ds,
    Forall is_crash_dialog ds /\
    dialogs
      (snd (Pipeline.whenReady
              {| Pipeline.unlink_ok := true;
                 Pipeline.initdb_events := [OnClose (Some 0)];
                 Pipeline.port_free := fun _ => true;
                 Pipeline.postgres_events :=
                   [StderrData
                      "LOG:  database system is ready to accept connections"];
                 Pipeline.install_err := Some "exit code 1";
                 Pipeline.listmonk_events := [] |}
              (boot {| dataDir := false; pidFile := false;
                       initMarker := None |})))
    = [] ++ ds ++ [startup_dialog (InstallErr "exit code 1")].
Proof.
  destruct (startup_error_surfaced
              {| Pipeline.unlink_ok := true;
                 Pipeline.initdb_events := [OnClose (Some 0)];
                 Pipeline.port_free := fun _ => true;
                 Pipeline.postgres_events :=
                   [StderrData
                      "LOG:  database system is ready to accept connections"];
                 Pipeline.install_err := Some "exit code 1";
                 Pipeline.listmonk_events := [] |}
              (boot {| dataDir := false; pidFile := false;
                       initMarker := None |}))
    as (ds & Hcrash & Hdialogs & _).
  exists ds. split; [exact Hcrash | exact (proj1 Hdialogs)].
Defined.
